(** * The KAMIS / aT public-data API explorer: normaliser, paginator,
      type inference and schema summary

    A shallow embedding of [code/data_collection/api_explorer.py].

    Conventions of the embedding.
    - Python [str] is [string]; characters are the 256 one-byte codes of
      [ascii], so [\d] and [str.strip] range over ASCII only.
    - A Python [dict] is an association list in insertion order with unique
      keys ([PyDict.set] keeps both); a JSON document after [json.loads] is
      a [value].
    - A column of a frame holds text or missing values; numeric pandas
      dtypes are outside the model.
    - Python [float] is an exact rational ([Q]); binary64 rounding is not
      modelled.  The three non-finite floats are constructors of [pyfloat].
    - Exceptions are values of [exn]; code that can raise returns a [result].
    - Library calls whose behaviour is not part of this repository
      ([json.loads], [ElementTree.fromstring], [requests.get],
      [pandas.to_numeric]) are variables of the sections that use them. *)

From Stdlib Require Import String Ascii Bool Arith ZArith QArith Qabs Lia List.
Import ListNotations.

From Stdlib Require Import Permutation Sorted.

#[local] Set Warnings "-register-all".

Local Open Scope string_scope.
Local Open Scope list_scope.
Local Open Scope nat_scope.

(** ** Exceptions and fallible computations *)

Inductive exn : Type :=
| AttributeError
| TypeError
| ValueError
| OverflowError
| KeyError (key : string)
| JSONDecodeError
| XMLParseError
| HTTPError (status : nat)
| RequestException.

Inductive result (A : Type) : Type :=
| Ok (a : A)
| Raise (e : exn).

Arguments Ok {A} a.
Arguments Raise {A} e.

Definition rbind {A B} (r : result A) (k : A -> result B) : result B :=
  match r with
  | Ok a => k a
  | Raise e => Raise e
  end.

Declare Scope result_scope.
Delimit Scope result_scope with result.
Notation "'let?' x ':=' r 'in' k" := (rbind r (fun x => k))
  (at level 10, x name, r at level 100, k at level 200) : result_scope.

(** ** Python strings *)

Module PyStr.

Definition code (c : ascii) : nat := nat_of_ascii c.

(** [str.isspace] on one-byte characters: TAB, LF, VT, FF, CR, the four
    separators FS GS RS US, and the blank. *)
Definition is_space (c : ascii) : bool :=
  let n := code c in
  ((9 <=? n) && (n <=? 13)) || ((28 <=? n) && (n <=? 32)).

Definition is_digit (c : ascii) : bool :=
  let n := code c in (48 <=? n) && (n <=? 57).

Definition digit_value (c : ascii) : Z := Z.of_nat (code c - 48).

Fixpoint lstrip (s : string) : string :=
  match s with
  | EmptyString => EmptyString
  | String c s' => if is_space c then lstrip s' else s
  end.

Fixpoint rstrip (s : string) : string :=
  match s with
  | EmptyString => EmptyString
  | String c s' =>
      match rstrip s' with
      | EmptyString => if is_space c then EmptyString else String c EmptyString
      | r => String c r
      end
  end.

(** [s.strip()] *)
Definition strip (s : string) : string := rstrip (lstrip s).

Definition lower_char (c : ascii) : ascii :=
  let n := code c in
  if (65 <=? n) && (n <=? 90) then ascii_of_nat (n + 32) else c.

(** [s.lower()] *)
Fixpoint lower (s : string) : string :=
  match s with
  | EmptyString => EmptyString
  | String c s' => String (lower_char c) (lower s')
  end.

(** [s.startswith(p)] *)
Definition startswith (s p : string) : bool := String.prefix p s.

(** [sub in s] *)
Fixpoint contains (sub s : string) : bool :=
  String.prefix sub s ||
  match s with
  | EmptyString => false
  | String _ s' => contains sub s'
  end.

Definition is_empty (s : string) : bool :=
  match s with EmptyString => true | _ => false end.

(** [len(s)] *)
Definition len (s : string) : nat := String.length s.

End PyStr.

(** ** Python objects as produced by [json.loads] *)

Inductive pyfloat : Type :=
| FFinite (q : Q)
| FInf (negative : bool)
| FNaN.

Inductive value : Type :=
| PyNone
| PyBool (b : bool)
| PyInt (z : Z)
| PyFloat (f : pyfloat)
| PyStr (s : string)
| PyList (l : list value)
| PyDict (d : list (string * value)).

Definition dict : Type := list (string * value).

(** A Record of the data model: one flat mapping per API item. *)
Definition record : Type := dict.

Module PyDict.

Section Generic.
Context {V : Type}.

(** [d[k]] when present *)
Fixpoint lookup (k : string) (d : list (string * V)) : option V :=
  match d with
  | [] => None
  | (k', v) :: d' => if String.eqb k k' then Some v else lookup k d'
  end.

(** [k in d] *)
Definition mem (k : string) (d : list (string * V)) : bool :=
  match lookup k d with Some _ => true | None => false end.

(** [d[k] = v]: an existing key keeps its position, a new key goes last *)
Fixpoint set (k : string) (v : V) (d : list (string * V)) : list (string * V) :=
  match d with
  | [] => [(k, v)]
  | (k', v') :: d' =>
      if String.eqb k k' then (k, v) :: d' else (k', v') :: set k v d'
  end.

Definition keys (d : list (string * V)) : list string := map fst d.
End Generic.

(** [d.get(k)]: the value, or [None] *)
Definition get (d : dict) (k : string) : value :=
  match lookup k d with Some v => v | None => PyNone end.

End PyDict.

Module Py.

(** [bool(v)] *)
Definition truthy (v : value) : bool :=
  match v with
  | PyNone => false
  | PyBool b => b
  | PyInt z => negb (Z.eqb z 0)
  | PyFloat (FFinite q) => negb (Z.eqb (Qnum q) 0)
  | PyFloat _ => true
  | PyStr s => negb (PyStr.is_empty s)
  | PyList l => match l with [] => false | _ => true end
  | PyDict d => match d with [] => false | _ => true end
  end.

(** [v or {}] *)
Definition or_empty_dict (v : value) : value :=
  if truthy v then v else PyDict [].

(** [isinstance(v, dict)] *)
Definition is_dict (v : value) : bool :=
  match v with PyDict _ => true | _ => false end.

(** [isinstance(v, dict) and k in v] *)
Definition dict_with_key (v : value) (k : string) : bool :=
  match v with PyDict d => PyDict.mem k d | _ => false end.

(** [v.get(k)]: only a [dict] has the attribute [get] among the objects
    [json.loads] builds. *)
Definition get_attr_get (v : value) (k : string) : result value :=
  match v with
  | PyDict d => Ok (PyDict.get d k)
  | _ => Raise AttributeError
  end.

(** Decimal digits with single underscores between them, as [int] reads
    them in base 10. *)
Fixpoint int_digits (l : list ascii) (acc : Z) (after_digit : bool) : option Z :=
  match l with
  | [] => if after_digit then Some acc else None
  | c :: l' =>
      if PyStr.is_digit c then
        int_digits l' (10 * acc + PyStr.digit_value c)%Z true
      else if Ascii.eqb c "_"%char then
        (if after_digit then int_digits l' acc false else None)
      else None
  end.

(** [int(s)] for a string: surrounding whitespace, an optional sign, then
    the digits.  (CPython's configurable cap on the number of digits is a
    run-time setting and is left out.) *)
Definition int_of_str (s : string) : result Z :=
  let body := list_ascii_of_string (PyStr.strip s) in
  let parsed :=
    match body with
    | c :: rest =>
        if Ascii.eqb c "-"%char then option_map Z.opp (int_digits rest 0%Z false)
        else if Ascii.eqb c "+"%char then int_digits rest 0%Z false
        else int_digits body 0%Z false
    | [] => None
    end in
  match parsed with
  | Some z => Ok z
  | None => Raise ValueError
  end.

(** [int(v)] *)
Definition int (v : value) : result Z :=
  match v with
  | PyNone => Raise TypeError
  | PyBool b => Ok (if b then 1 else 0)%Z
  | PyInt z => Ok z
  | PyFloat (FFinite q) => Ok (Z.quot (Qnum q) (Zpos (Qden q)))
  | PyFloat (FInf _) => Raise OverflowError
  | PyFloat FNaN => Raise ValueError
  | PyStr s => int_of_str s
  | PyList _ => Raise TypeError
  | PyDict _ => Raise TypeError
  end.

Definition is_none (v : value) : bool :=
  match v with PyNone => true | _ => false end.

End Py.

(** ** XML element trees, as far as [parse_xml_items] looks at them *)

Inductive element : Type :=
| Element (tag : string) (text : option string) (children : list element).

Module ET.

Definition tag (e : element) : string := let 'Element t _ _ := e in t.
Definition text (e : element) : option string := let 'Element _ x _ := e in x.
Definition children (e : element) : list element := let 'Element _ _ c := e in c.

(** All elements strictly below [e], in document order. *)
Fixpoint descendants (e : element) : list element :=
  let 'Element _ _ cs := e in
  (fix walk (l : list element) : list element :=
     match l with
     | [] => []
     | c :: l' => c :: descendants c ++ walk l'
     end) cs.

(** [root.findall(".//" + name)] *)
Definition findall_deep (name : string) (root : element) : list element :=
  filter (fun e => String.eqb (tag e) name) (descendants root).

(** [child.text] as a Python object *)
Definition text_value (e : element) : value :=
  match text e with Some s => PyStr s | None => PyNone end.

End ET.

(** ** Module settings *)

Record config : Type := {
  SERVICE_KEY : string;
  TIMEOUT : nat;
  SLEEP_SEC : Q;
  NUM_OF_ROWS : nat;
  MAX_PAGES : nat;
  RETURN_TYPE : string
}.

(** The values the module binds at import; the service key comes from the
    environment. *)
Definition module_config (service_key : string) : config :=
  {| SERVICE_KEY := service_key;
     TIMEOUT := 30;
     SLEEP_SEC := 2 # 10;
     NUM_OF_ROWS := 100;
     MAX_PAGES := 50;
     RETURN_TYPE := "JSON" |}.

(** ** HTTP responses and the effects of a collection run *)

Record response : Type := {
  status_code : nat;
  resp_body : string;
  headers : list (string * string)
}.

Inductive event : Type :=
| EvGet (url : string) (params : dict) (timeout : nat)
| EvSleep (seconds : Q).

(** ** Response normaliser and paginator *)

Section Explorer.

(** [json.loads] and [ElementTree.fromstring]: each returns the parsed
    document or raises. *)
Variable json_loads : string -> result value.
Variable ET_fromstring : string -> result element.

Definition is_json_response (text content_type : string) : bool :=
  if negb (PyStr.is_empty content_type)
     && PyStr.contains "json" (PyStr.lower content_type)
  then true
  else
    let t := PyStr.strip text in
    PyStr.startswith t "{" || PyStr.startswith t "[".

Definition xml_row (item : element) : record :=
  fold_left (fun row child => PyDict.set (ET.tag child) (ET.text_value child) row)
            (ET.children item) [].

Definition xml_rows (root : element) : list record :=
  fold_left (fun items item =>
               let row := xml_row item in
               match row with
               | [] => items
               | _ => items ++ [row]
               end)
            (ET.findall_deep "item" root) [].

Definition parse_xml_items (xml_text : string) : result (list record) :=
  (let? root := ET_fromstring xml_text in
   Ok (xml_rows root))%result.

Definition wrap_value (x : value) : record := [("value", x)].

Definition normalize_element (x : value) : record :=
  match x with
  | PyDict d => d
  | _ => wrap_value x
  end.

(** The inner loop is [obj.get("item")] followed by the recursive call:
    it walks to the first binding of "item" ([None], hence no items, when
    there is none). *)
Fixpoint _normalize_items (obj : value) : list record :=
  match obj with
  | PyNone => []
  | PyList l => map normalize_element l
  | PyDict d =>
      if PyDict.mem "item" d then
        (fix at_item (kvs : dict) : list record :=
           match kvs with
           | [] => []
           | (k, v) :: kvs' =>
               if String.eqb "item" k then _normalize_items v else at_item kvs'
           end) d
      else [d]
  | _ => [wrap_value obj]
  end.

(** The JSON branch of [extract_items], after [json.loads]. *)
Definition extract_json_items (data : value) : result (list record * value) :=
  (let? items_obj :=
     if Py.dict_with_key data "response" then
       let? response := Py.get_attr_get data "response" in
       let? b := Py.get_attr_get (Py.or_empty_dict response) "body" in
       let body := Py.or_empty_dict b in
       Py.get_attr_get body "items"
     else if Py.dict_with_key data "items" then
       Py.get_attr_get data "items"
     else Ok data in
   Ok (_normalize_items items_obj, data))%result.

Definition extract_items (resp_text content_type : string)
  : result (list record * value) :=
  if is_json_response resp_text content_type then
    (let? data := json_loads resp_text in
     extract_json_items data)%result
  else
    (let? items := parse_xml_items resp_text in
     Ok (items, PyDict []))%result.

Definition _extract_total_count (meta : value) : option Z :=
  let attempt : result (option Z) :=
    (let? response := Py.get_attr_get meta "response" in
     let? b := Py.get_attr_get (Py.or_empty_dict response) "body" in
     let body := Py.or_empty_dict b in
     let? tc := Py.get_attr_get body "totalCount" in
     if Py.is_none tc then Ok None
     else let? n := Py.int tc in Ok (Some n))%result in
  match attempt with
  | Ok r => r
  | Raise _ => None
  end.

(** *** Paginator *)

(** The network: one GET answers or raises, and moves the outside world. *)
Variable World : Type.
Variable requests_get :
  World -> string -> dict -> nat -> result response * World.

Variable cfg : config.

Record state : Type := {
  world : World;
  trace : list event
}.

(** Computations that may raise, over the world and the log of effects. *)
Definition M (A : Type) : Type := state -> result A * state.

Definition ret {A} (a : A) : M A := fun st => (Ok a, st).

Definition raise {A} (e : exn) : M A := fun st => (Raise e, st).

Definition bind {A B} (m : M A) (k : A -> M B) : M B :=
  fun st =>
    match m st with
    | (Ok a, st') => k a st'
    | (Raise e, st') => (Raise e, st')
    end.

Definition lift {A} (r : result A) : M A := fun st => (r, st).

Notation "x <- m ;; k" := (bind m (fun x => k))
  (at level 61, m at next level, right associativity).

Definition emit (e : event) (st : state) : state :=
  {| world := world st; trace := trace st ++ [e] |}.

(** [requests.get(url, params=params, timeout=timeout)] *)
Definition http_get (url : string) (params : dict) (timeout : nat) : M response :=
  fun st =>
    let '(r, w) := requests_get (world st) url params timeout in
    (r, emit (EvGet url params timeout) {| world := w; trace := trace st |}).

(** [time.sleep(seconds)] *)
Definition sleep (seconds : Q) : M unit :=
  fun st => (Ok tt, emit (EvSleep seconds) st).

(** [r.raise_for_status()] *)
Definition raise_for_status (r : response) : result unit :=
  if (400 <=? status_code r) && (status_code r <? 600)
  then Raise (HTTPError (status_code r))
  else Ok tt.

(** [r.headers.get(name, default)]; header names compare without case. *)
Definition headers_get (r : response) (name default : string) : string :=
  match find (fun kv => String.eqb (PyStr.lower (fst kv)) (PyStr.lower name))
             (headers r) with
  | Some kv => snd kv
  | None => default
  end.

Definition request_page (url : string) (params : dict)
  : M (list record * value) :=
  r <- http_get url params (TIMEOUT cfg) ;;
  _ <- lift (raise_for_status r) ;;
  lift (extract_items (resp_body r) (headers_get r "Content-Type" EmptyString)).

(** The four assignments at the head of the loop body. *)
Definition page_params (base_params : dict) (page : nat) : dict :=
  let params := base_params in
  let params := PyDict.set "pageNo" (PyInt (Z.of_nat page)) params in
  let params := PyDict.set "numOfRows" (PyInt (Z.of_nat (NUM_OF_ROWS cfg))) params in
  let params := PyDict.set "serviceKey" (PyStr (SERVICE_KEY cfg)) params in
  PyDict.set "returnType" (PyStr (RETURN_TYPE cfg)) params.

(** [total_count is not None and len(all_items) >= total_count] *)
Definition total_reached (total_count : option Z) (all_items : list record) : bool :=
  match total_count with
  | Some tc => (tc <=? Z.of_nat (length all_items))%Z
  | None => false
  end.

(** How one pass through the loop body ends: at a [break], or at the
    bottom with the next page number. *)
Inductive loop_exit : Type :=
| Break (all_items : list record)
| NextPage (page : nat) (all_items : list record).

(** The body of the [while] loop of [paginate]. *)
Definition paginate_body (url : string) (base_params : dict)
           (page : nat) (all_items : list record) : M loop_exit :=
  let params := page_params base_params page in
  p <- request_page url params ;;
  let '(items, meta) := p in
  match items with
  | [] => ret (Break all_items)
  | _ =>
      let all_items := all_items ++ items in
      let total_count := _extract_total_count meta in
      if total_reached total_count all_items then ret (Break all_items)
      else if length items <? NUM_OF_ROWS cfg then ret (Break all_items)
      else
        let page := page + 1 in
        _ <- sleep (SLEEP_SEC cfg) ;;
        ret (NextPage page all_items)
  end.

(** The [while] loop, one unfolding per iteration.  [fuel] bounds the
    number of iterations the model performs; [None] is a run cut short
    by it. *)
Fixpoint paginate_loop (url : string) (base_params : dict)
         (fuel page : nat) (all_items : list record) (st : state)
  : option (result (list record) * state) :=
  if page <=? MAX_PAGES cfg then
    match fuel with
    | O => None
    | S fuel' =>
        match paginate_body url base_params page all_items st with
        | (Raise e, st') => Some (Raise e, st')
        | (Ok (Break all_items), st') => Some (Ok all_items, st')
        | (Ok (NextPage page all_items), st') =>
            paginate_loop url base_params fuel' page all_items st'
        end
    end
  else Some (Ok all_items, st).

Definition paginate (url : string) (base_params : dict) (st : state)
  : option (result (list record) * state) :=
  paginate_loop url base_params (MAX_PAGES cfg) 1 [] st.

(** A run starts with an empty log. *)
Definition start (w : World) : state := {| world := w; trace := [] |}.

End Explorer.

Arguments world {World} _.
Arguments trace {World} _.
Arguments start {World} w.
Arguments emit {World} e st.
Arguments http_get {World} requests_get url params timeout _.
Arguments request_page json_loads ET_fromstring {World} requests_get cfg url params _.
Arguments paginate_body json_loads ET_fromstring {World} requests_get cfg
  url base_params page all_items _.
Arguments paginate_loop json_loads ET_fromstring {World} requests_get cfg
  url base_params fuel page all_items st.
Arguments paginate json_loads ET_fromstring {World} requests_get cfg url base_params st.

(** The GET requests of a log, oldest first. *)
Definition is_get (e : event) : bool :=
  match e with EvGet _ _ _ => true | EvSleep _ => false end.

Definition requests_issued (log : list event) : nat :=
  length (filter is_get log).

(** ** Regular expressions, as far as the patterns of [infer_type] need *)

Module Re.

Inductive regex : Type :=
| Void
| Eps
| Chr (c : ascii)
| Digit
| Cat (r s : regex)
| Alt (r s : regex)
| Star (r : regex).

(** [r?], [r+] and [r{n}] *)
Definition Opt (r : regex) : regex := Alt r Eps.
Definition Plus (r : regex) : regex := Cat r (Star r).
Fixpoint Rep (n : nat) (r : regex) : regex :=
  match n with
  | O => Eps
  | S n' => Cat r (Rep n' r)
  end.

Fixpoint nullable (r : regex) : bool :=
  match r with
  | Void => false
  | Eps => true
  | Chr _ => false
  | Digit => false
  | Cat r s => nullable r && nullable s
  | Alt r s => nullable r || nullable s
  | Star _ => true
  end.

Fixpoint deriv (c : ascii) (r : regex) : regex :=
  match r with
  | Void => Void
  | Eps => Void
  | Chr c' => if Ascii.eqb c c' then Eps else Void
  | Digit => if PyStr.is_digit c then Eps else Void
  | Cat r s =>
      if nullable r then Alt (Cat (deriv c r) s) (deriv c s)
      else Cat (deriv c r) s
  | Alt r s => Alt (deriv c r) (deriv c s)
  | Star r => Cat (deriv c r) (Star r)
  end.

(** [re.fullmatch(r, x) is not None] *)
Fixpoint fullmatch (r : regex) (x : string) : bool :=
  match x with
  | EmptyString => nullable r
  | String c x' => fullmatch (deriv c r) x'
  end.

End Re.

(** ** Type inference *)

Inductive dtype : Type := T_date | T_int | T_float | T_string | T_unknown.

(** The string [infer_type] returns. *)
Definition dtype_name (t : dtype) : string :=
  match t with
  | T_date => "date"
  | T_int => "int"
  | T_float => "float"
  | T_string => "string"
  | T_unknown => "unknown"
  end.

(** A cell of a text column: a string, or missing ([None] / NaN). *)
Definition cell : Type := option string.

Module Series.

(** [ser.dropna().astype(str)] on a text column *)
Fixpoint dropna (ser : list cell) : list string :=
  match ser with
  | [] => []
  | Some x :: ser' => x :: dropna ser'
  | None :: ser' => dropna ser'
  end.

Definition bool_to_float (b : bool) : Q := (if b then 1 else 0)%Q.

(** [flags.astype("float").mean()] *)
Definition mean (flags : list bool) : Q :=
  (fold_right Qplus 0 (map bool_to_float flags)
   / inject_Z (Z.of_nat (length flags)))%Q.

(** The first least element for [le], as [min()] and [max()] pick it. *)
Definition extremum {A} (le : A -> A -> bool) (l : list A) : option A :=
  match l with
  | [] => None
  | x :: l' => Some (fold_left (fun m y => if le m y then m else y) l' x)
  end.

(** [ser.astype(str).nunique()] *)
Definition nunique (l : list string) : nat :=
  length (nodup string_dec l).

End Series.

Definition number_re : Re.regex :=
  Re.Cat (Re.Opt (Re.Chr "-"))
         (Re.Cat (Re.Plus Re.Digit)
                 (Re.Opt (Re.Cat (Re.Chr ".") (Re.Plus Re.Digit)))).

Definition int_re : Re.regex :=
  Re.Cat (Re.Opt (Re.Chr "-")) (Re.Plus Re.Digit).

Definition date8_re : Re.regex := Re.Rep 8 Re.Digit.
Definition date6_re : Re.regex := Re.Rep 6 Re.Digit.
Definition date_dashed_re : Re.regex :=
  Re.Cat (Re.Rep 4 Re.Digit)
         (Re.Cat (Re.Chr "-")
                 (Re.Cat (Re.Rep 2 Re.Digit)
                         (Re.Cat (Re.Chr "-") (Re.Rep 2 Re.Digit)))).

Definition is_number (x : string) : bool := Re.fullmatch number_re x.

Definition is_date (x : string) : bool :=
  Re.fullmatch date8_re x || Re.fullmatch date6_re x
  || Re.fullmatch date_dashed_re x.

Definition is_int (x : string) : bool := Re.fullmatch int_re x.

(** [ratio >= 0.9] *)
Definition at_least_090 (ratio : Q) : bool := Qle_bool (9 # 10) ratio.

Definition infer_type (series : list cell) : dtype :=
  let s := map PyStr.strip (Series.dropna series) in
  let s := filter (fun x => negb (String.eqb x EmptyString)) s in
  match s with
  | [] => T_unknown
  | _ =>
      let num_ratio := Series.mean (map is_number s) in
      let date_ratio := Series.mean (map is_date s) in
      if at_least_090 date_ratio then T_date
      else if at_least_090 num_ratio then
        let int_ratio := Series.mean (map is_int s) in
        if at_least_090 int_ratio then T_int else T_float
      else T_string
  end.

(** ** Schema summary *)

(** A Record whose values are text or null: the Records this part of the
    model covers.  (A numeric JSON value would give its column a numeric
    pandas dtype, which is not modelled.) *)
Definition row : Type := list (string * cell).

(** A frame of text columns: [len(df)] and the labelled columns, each of
    that length.  Labels are distinct, as [pd.DataFrame] makes them from
    a list of mappings. *)
Record DataFrame : Type := {
  n_rows : nat;
  columns : list (string * list cell)
}.

Module Pandas.

Definition add_labels (seen : list string) (r : row) : list string :=
  fold_left (fun acc k => if existsb (String.eqb k) acc then acc else acc ++ [k])
            (PyDict.keys r) seen.

(** Column labels of [pd.DataFrame(items)]: every key, in first-seen order. *)
Definition labels (items : list row) : list string :=
  fold_left add_labels items [].

(** The cell of [r] under [col]; an absent key is a missing value. *)
Definition row_cell (col : string) (r : row) : cell :=
  match PyDict.lookup col r with
  | Some c => c
  | None => None
  end.

(** [pd.DataFrame(items)] *)
Definition DataFrame_of (items : list row) : DataFrame :=
  {| n_rows := length items;
     columns := map (fun col => (col, map (row_cell col) items)) (labels items) |}.

Definition round_half_even (q : Q) : Z :=
  let n := Qnum q in
  let d := Zpos (Qden q) in
  let f := (n / d)%Z in
  match (2 * (n mod d) ?= d)%Z with
  | Lt => f
  | Gt => (f + 1)%Z
  | Eq => if Z.even f then f else (f + 1)%Z
  end.

(** [round(q, ndigits)] *)
Definition round (q : Q) (ndigits : nat) : Q :=
  let scale := inject_Z (10 ^ Z.of_nat ndigits) in
  (inject_Z (round_half_even (q * scale)) / scale)%Q.

Fixpoint insert_by {A} (key : A -> string) (x : A) (l : list A) : list A :=
  match l with
  | [] => [x]
  | y :: l' =>
      if String.leb (key x) (key y) then x :: l else y :: insert_by key x l'
  end.

(** Rows in ascending order of a string-valued column. *)
Definition sort_by {A} (key : A -> string) (l : list A) : list A :=
  fold_right (insert_by key) [] l.

End Pandas.

Record summary_row : Type := {
  column : string;
  inferred_type : dtype;
  missing_rate : Q;
  nunique : nat;
  minv : value;
  maxv : value
}.

(** The labels of [pd.DataFrame(summary_rows)]: the keys of the row
    mappings, none when there is no row. *)
Definition summary_labels (summary_rows : list summary_row) : list string :=
  match summary_rows with
  | [] => []
  | _ => ["column"; "inferred_type"; "missing_rate"; "nunique"; "min"; "max"]
  end.

Section Summarizer.

(** [pd.to_numeric(x, errors="coerce")] on one string: its number, or
    NaN ([None]) when it does not read as one. *)
Variable to_numeric : string -> option Q.

(** [pd.to_numeric(nonnull, errors="coerce").dropna()] *)
Fixpoint numeric_values (nonnull : list string) : list Q :=
  match nonnull with
  | [] => []
  | x :: rest =>
      match to_numeric x with
      | Some q => q :: numeric_values rest
      | None => numeric_values rest
      end
  end.

Definition pair_or_none {A} (inj : A -> value) (lo hi : option A) : value * value :=
  match lo, hi with
  | Some a, Some b => (inj a, inj b)
  | _, _ => (PyNone, PyNone)
  end.

(** The body of the loop over [df.columns]. *)
Definition summarize_column (len_df : nat) (col : string) (ser : list cell)
  : summary_row :=
  let inferred := infer_type ser in
  let nonnull := Series.dropna ser in
  let missing_rate :=
    (1 - (if negb (len_df =? 0)
          then inject_Z (Z.of_nat (length nonnull)) / inject_Z (Z.of_nat len_df)
          else 0))%Q in
  let nunique :=
    match nonnull with
    | [] => 0
    | _ => Series.nunique nonnull
    end in
  let extrema : value * value :=
    match inferred with
    | T_int | T_float =>
        let nums := numeric_values nonnull in
        pair_or_none (fun q => PyFloat (FFinite q))
          (Series.extremum Qle_bool nums)
          (Series.extremum (fun a b => Qle_bool b a) nums)
    | T_date =>
        let vals := map PyStr.strip nonnull in
        let vals := filter (fun x => negb (String.eqb x EmptyString)) vals in
        pair_or_none PyStr
          (Series.extremum String.leb vals)
          (Series.extremum (fun a b => String.leb b a) vals)
    | _ =>
        let vals := nonnull in
        let lengths := map PyStr.len vals in
        pair_or_none (fun n => PyInt (Z.of_nat n))
          (Series.extremum Nat.leb lengths)
          (Series.extremum (fun a b => Nat.leb b a) lengths)
    end in
  {| column := col;
     inferred_type := inferred;
     missing_rate := Pandas.round missing_rate 4;
     nunique := nunique;
     minv := fst extrema;
     maxv := snd extrema |}.

(** [frame.sort_values(by)]: a label the frame does not have raises. *)
Definition sort_values (summary_rows : list summary_row) (by_label : string)
  : result (list summary_row) :=
  if existsb (String.eqb by_label) (summary_labels summary_rows)
  then Ok (Pandas.sort_by column summary_rows)
  else Raise (KeyError by_label).

Definition summarize_dataframe (df : DataFrame) : result (list summary_row) :=
  let summary_rows :=
    map (fun cs => summarize_column (n_rows df) (fst cs) (snd cs)) (columns df) in
  sort_values summary_rows "column".

(** What [main] does with the Records of one endpoint. *)
Inductive api_report : Type :=
| NoData
| Summarized (summary : list summary_row).

Definition main_api (items : list row) : result api_report :=
  match items with
  | [] => Ok NoData
  | _ =>
      (let? summary := summarize_dataframe (Pandas.DataFrame_of items) in
       Ok (Summarized summary))%result
  end.

End Summarizer.

(** * Specification-side definitions *)

(** ** Pages as the endpoint serves them *)

Section Pages.

Variable json_loads : string -> result value.
Variable ET_fromstring : string -> result element.
Variable World : Type.
Variable requests_get :
  World -> string -> dict -> nat -> result response * World.
Variable cfg : config.

(** The answer to one page request and the world after it. *)
Definition fetch (url : string) (params : dict) (w : World)
  : result (list record * value) * World :=
  let '(r, w') := requests_get w url params (TIMEOUT cfg) in
  ((let? resp := r in
    let? _ := raise_for_status resp in
    extract_items json_loads ET_fromstring
                  (resp_body resp) (headers_get resp "Content-Type" EmptyString))%result,
   w').

(** Pages [page], [page + 1], ... ([n] of them) requested one after the
    other, whatever they hold; the first failure ends the sequence. *)
Fixpoint fetch_pages (url : string) (base_params : dict) (n page : nat) (w : World)
  : result (list (list record * value)) * World :=
  match n with
  | O => (Ok [], w)
  | S n' =>
      match fetch url (page_params cfg base_params page) w with
      | (Raise e, w') => (Raise e, w')
      | (Ok p, w') =>
          match fetch_pages url base_params n' (page + 1) w' with
          | (Raise e, w'') => (Raise e, w'')
          | (Ok ps, w'') => (Ok (p :: ps), w'')
          end
      end
  end.

(** The state after a request that left the world at [w]. *)
Definition after_get (st : state World) (url : string) (params : dict) (w : World)
  : state World :=
  {| world := w; trace := trace st ++ [EvGet url params (TIMEOUT cfg)] |}.

(** What one pass through the loop body does with a fetched page, case
    by case. *)
Definition body_outcome (page : nat) (all_items items : list record) (meta : value)
           (st1 : state World) : result loop_exit * state World :=
  match items with
  | [] => (Ok (Break all_items), st1)
  | _ =>
      if total_reached (_extract_total_count meta) (all_items ++ items)
      then (Ok (Break (all_items ++ items)), st1)
      else if length items <? NUM_OF_ROWS cfg
           then (Ok (Break (all_items ++ items)), st1)
           else (Ok (NextPage (page + 1) (all_items ++ items)),
                 emit (EvSleep (SLEEP_SEC cfg)) st1)
  end.

(** The Records of a sequence of pages, in page order. *)
Definition records_of (pages : list (list record * value)) : list record :=
  concat (map fst pages).

(** No declared total can be reached within [MAX_PAGES] full pages. *)
Definition total_out_of_reach (meta : value) : Prop :=
  forall tc, _extract_total_count meta = Some tc ->
             (Z.of_nat (MAX_PAGES cfg * NUM_OF_ROWS cfg) < tc)%Z.

End Pages.

Arguments fetch json_loads ET_fromstring {World} requests_get cfg url params w.
Arguments fetch_pages json_loads ET_fromstring {World} requests_get cfg
  url base_params n page w.
Arguments after_get {World} cfg st url params w.
Arguments body_outcome {World} cfg page all_items items meta st1.

(** ** The item collection as the specification probes for it *)

(** Probe (a): the nested path response.body.items, through mappings. *)
Definition path_items (data : value) : option value :=
  match data with
  | PyDict d =>
      match PyDict.lookup "response" d with
      | Some (PyDict r) =>
          match PyDict.lookup "body" r with
          | Some (PyDict b) => PyDict.lookup "items" b
          | _ => None
          end
      | _ => None
      end
  | _ => None
  end.

(** Probe (b): a top-level items field. *)
Definition top_items (data : value) : option value :=
  match data with
  | PyDict d => PyDict.lookup "items" d
  | _ => None
  end.

(** The chain (a), then (b), then (c) the whole value. *)
Definition probed_items (data : value) : value :=
  match path_items data with
  | Some v => v
  | None =>
      match top_items data with
      | Some v => v
      | None => data
      end
  end.

(** A mapping, or a value that counts as false. *)
Definition mapping_or_falsy (v : value) : Prop :=
  Py.is_dict v = true \/ Py.truthy v = false.

(** [(response or {}).get("body")] when [response] is a mapping or falsy. *)
Definition body_under (response : value) : value :=
  match Py.or_empty_dict response with
  | PyDict r => PyDict.get r "body"
  | _ => PyNone
  end.

(** ** Value shapes and classification, in the specification's words *)

Module Shape.













End Shape.

(** At least nine in ten of [cleaned] satisfy [shape]. *)
Definition fraction_ge_090 (shape : string -> bool) (cleaned : list string) : bool :=
  9 * length cleaned <=? 10 * length (filter shape cleaned).


(** ** Columns of a Dataset, and extrema *)

(** The values of field [col] down the Dataset, missing where a Record has
    no such field. *)
Definition column_values (col : string) (items : list row) : list cell :=
  map (Pandas.row_cell col) items.

(** Records in which [col] is present and non-null. *)
Definition present_count (col : string) (items : list row) : nat :=
  length (filter (fun r => match Pandas.row_cell col r with
                           | Some _ => true
                           | None => false
                           end) items).


Definition string_le (a b : string) : Prop := String.leb a b = true.

(** Ten Records, seven of which carry a non-null price. *)
Definition ten_records : list row :=
  [ [("id", Some "1"); ("price", Some "5200")];
    [("id", Some "2"); ("price", Some "5150")];
    [("id", Some "3")];
    [("id", Some "4"); ("price", Some "4980")];
    [("id", Some "5"); ("price", None)];
    [("id", Some "6"); ("price", Some "5010")];
    [("id", Some "7"); ("price", Some "5300")];
    [("id", Some "8")];
    [("id", Some "9"); ("price", Some "5275")];
    [("id", Some "10"); ("price", Some "5120")] ].

(** A [to_numeric] that reads unsigned decimal integers only. *)
Definition to_numeric_digits (x : string) : option Q :=
  match Py.int_digits (list_ascii_of_string x) 0%Z false with
  | Some z => Some (inject_Z z)
  | None => None
  end.

(** The non-null values of a column, trimmed, without the empty ones. *)
Definition cleaned_values (nonnull : list string) : list string :=
  filter (fun x => negb (String.eqb x EmptyString)) (map PyStr.strip nonnull).




(** ** Further specification-side definitions *)


(** Values from which no item is extracted: null, the empty sequence, and
    a mapping whose "item" leads to one of these. *)
Inductive no_items : value -> Prop :=
| no_items_none : no_items PyNone
| no_items_nil : no_items (PyList [])
| no_items_item d :
    PyDict.mem "item" d = true ->
    no_items (PyDict.get d "item") ->
    no_items (PyDict d).

(** The number of constructors of a value. *)
Fixpoint vsize (v : value) : nat :=
  match v with
  | PyList l =>
      S ((fix sum (l : list value) : nat :=
            match l with
            | [] => 0
            | x :: l' => vsize x + sum l'
            end) l)
  | PyDict d =>
      S ((fix sum (d : list (string * value)) : nat :=
            match d with
            | [] => 0
            | (_, x) :: d' => vsize x + sum d'
            end) d)
  | _ => 1
  end.

Definition has_children (e : element) : bool :=
  match ET.children e with
  | [] => false
  | _ => true
  end.

(** The text of the last child of [item] tagged [tag]. *)
Definition last_child_text (tag : string) (item : element) : option value :=
  option_map ET.text_value
             (find (fun c => String.eqb (ET.tag c) tag) (rev (ET.children item))).

(** The four keys [paginate] sets on every request. *)
Definition pagination_key (k : string) : bool :=
  String.eqb k "pageNo" || String.eqb k "numOfRows"
  || String.eqb k "serviceKey" || String.eqb k "returnType".

(** A small XML document: two priced items, an empty item, and an item
    that repeats a tag. *)
Definition sample_tree : element :=
  Element "response" None
    [Element "header" None [Element "resultCode" (Some "00") []];
     Element "body" None
       [Element "items" None
          [Element "item" None
             [Element "name" (Some "rice") []; Element "price" (Some "52000") []];
           Element "item" None [];
           Element "item" None
             [Element "name" (Some "bean") []; Element "price" None [];
              Element "name" (Some "red bean") []]]]].

(** The log of [k] page requests from page [page] on: a GET per page and
    a pause between consecutive ones. *)
Fixpoint requests_log (cfg : config) (url : string) (base_params : dict)
         (k page : nat) : list event :=
  match k with
  | O => []
  | S k' =>
      EvGet url (page_params cfg base_params page) (TIMEOUT cfg)
      :: match k' with
         | O => []
         | S _ => EvSleep (SLEEP_SEC cfg)
                  :: requests_log cfg url base_params k' (page + 1)
         end
  end.

(** The answers of an endpoint that is down after its first page. *)
Definition served_then_down : list (result response) :=
  [Ok {| status_code := 200; resp_body := "full page of 250";
         headers := [("Content-Type", "application/json")] |};
   Ok {| status_code := 503; resp_body := "full page of 250";
         headers := [("Content-Type", "application/json")] |}].

(** The classification of a cleaned column by the counts of its shapes. *)
Definition classify (cleaned : list string) : dtype :=
  match cleaned with
  | [] => T_unknown
  | _ =>
      if fraction_ge_090 is_date cleaned then T_date
      else if fraction_ge_090 is_number cleaned then
        if fraction_ge_090 is_int cleaned then T_int else T_float
      else T_string
  end.

(** ** Test doubles: a parser given by a table, a scripted endpoint *)

Module Mock.

(** [json.loads] restricted to the documents listed in [table]. *)
Definition loads (table : list (string * value)) (text : string) : result value :=
  match PyDict.lookup text table with
  | Some v => Ok v
  | None => Raise JSONDecodeError
  end.

(** An XML parser that rejects every body. *)
Definition fromstring (text : string) : result element := Raise XMLParseError.

(** An endpoint that answers from a script, one entry per request. *)
Definition scripted (w : list (result response)) (url : string)
           (params : dict) (timeout : nat)
  : result response * list (result response) :=
  match w with
  | r :: w' => (r, w')
  | [] => (Raise RequestException, [])
  end.

(** An endpoint that gives the same answer to every request. *)
Definition constant (r : response) (w : unit) (url : string)
           (params : dict) (timeout : nat) : result response * unit :=
  (Ok r, tt).

Definition json_response (body : string) : response :=
  {| status_code := 200;
     resp_body := body;
     headers := [("Content-Type", "application/json;charset=UTF-8")] |}.

Definition item (n : nat) : value :=
  PyDict [("exmn_ymd", PyStr "20250101"); ("item_nm", PyStr "rice");
          ("exmn_dd_avg_prc", PyStr "52000")].

(** The envelope the endpoints answer with. *)
Definition envelope (n_items : nat) (total_count : value) : value :=
  PyDict [("response",
           PyDict [("header", PyDict [("resultCode", PyStr "0")]);
                   ("body",
                    PyDict [("items", PyDict [("item", PyList (map item (seq 0 n_items)))]);
                            ("totalCount", total_count)])])].

(** Bodies are named by a key; the table says what each parses to. *)
Definition documents : list (string * value) :=
  [("full page of 250", envelope 100 (PyInt 250));
   ("last page of 250", envelope 50 (PyInt 250));
   ("full page of 150", envelope 100 (PyInt 150));
   ("pair, no total", PyList [PyDict [("a", PyStr "1")]; PyDict [("a", PyStr "2")]]);
   ("error envelope",
    PyDict [("response", PyDict [("header", PyDict [("resultCode", PyStr "03")])]);
            ("items", PyList [PyDict [("a", PyStr "1")]])]);
   ("flat items", PyDict [("items", PyList [PyDict [("a", PyStr "1")]])]);
   ("response is a string", PyDict [("response", PyStr "error")]);
   ("null", PyNone);
   ("[]", PyList [])].

(** What the normaliser extracts from [envelope n _]. *)
Definition records (n_items : nat) : list record :=
  map (fun k => [("exmn_ymd", PyStr "20250101"); ("item_nm", PyStr "rice");
                 ("exmn_dd_avg_prc", PyStr "52000")])
      (seq 0 n_items).

(** Settings with pages of two Records and a cap of five pages. *)
Definition small_config : config :=
  {| SERVICE_KEY := "key";
     TIMEOUT := 30;
     SLEEP_SEC := 2 # 10;
     NUM_OF_ROWS := 2;
     MAX_PAGES := 5;
     RETURN_TYPE := "JSON" |}.

(** A total of 250 served as 100 + 100 + 50, with a further page behind. *)
Definition served_250 : list (result response) :=
  [Ok (json_response "full page of 250"); Ok (json_response "full page of 250");
   Ok (json_response "last page of 250"); Ok (json_response "full page of 250")].

(** Two full pages under a declared total of 150. *)
Definition served_over_150 : list (result response) :=
  [Ok (json_response "full page of 150"); Ok (json_response "full page of 150");
   Ok (json_response "full page of 150")].

End Mock.

(** A body the parser chosen for it rejects with [e]. *)
Definition malformed
  (json_loads : string -> result value) (ET_fromstring : string -> result element)
  (resp : response) (e : exn) : Prop :=
  if is_json_response (resp_body resp) (headers_get resp "Content-Type" EmptyString)
  then json_loads (resp_body resp) = Raise e
  else ET_fromstring (resp_body resp) = Raise e.

(** A body that is well-formed JSON, [data], from which no item is
    extracted. *)
Definition json_without_items
  (json_loads : string -> result value) (resp : response) (data : value) : Prop :=
  is_json_response (resp_body resp) (headers_get resp "Content-Type" EmptyString) = true
  /\ json_loads (resp_body resp) = Ok data
  /\ extract_json_items data = Ok ([], data).

(** An endpoint that answers every request with a full page and never
    declares a total within reach: no natural stop can fire. *)
Definition always_full_page
  (json_loads : string -> result value) (ET_fromstring : string -> result element)
  {World : Type}
  (requests_get : World -> string -> dict -> nat -> result response * World)
  (cfg : config) : Prop :=
  0 < NUM_OF_ROWS cfg /\
  forall url params w, exists items meta w',
    fetch json_loads ET_fromstring requests_get cfg url params w = (Ok (items, meta), w')
    /\ length items = NUM_OF_ROWS cfg
    /\ total_out_of_reach cfg meta.

(** * Facts about the paginator *)

Section PaginatorFacts.

Variable json_loads : string -> result value.
Variable ET_fromstring : string -> result element.
Variable World : Type.
Variable requests_get :
  World -> string -> dict -> nat -> result response * World.
Variable cfg : config.

Let request_page' := request_page json_loads ET_fromstring requests_get cfg.
Let fetch' := fetch json_loads ET_fromstring requests_get cfg.
Let body' := paginate_body json_loads ET_fromstring requests_get cfg.
Let loop' := paginate_loop json_loads ET_fromstring requests_get cfg.
Let pages' := fetch_pages json_loads ET_fromstring requests_get cfg.

Lemma request_page_fetch url params st :
  request_page' url params st =
  (fst (fetch' url params (world st)),
   after_get cfg st url params (snd (fetch' url params (world st)))).
Proof.
  unfold request_page', fetch', request_page, fetch, bind, http_get, lift, after_get, emit.
  destruct (requests_get (world st) url params (TIMEOUT cfg)) as [[resp | e] w]; simpl.
  - destruct (raise_for_status resp); reflexivity.
  - reflexivity.
Qed.

Lemma paginate_body_ok url base page all_items st items meta w :
  fetch' url (page_params cfg base page) (world st) = (Ok (items, meta), w) ->
  body' url base page all_items st =
  body_outcome cfg page all_items items meta
               (after_get cfg st url (page_params cfg base page) w).
Proof.
  intros Hf. unfold body', paginate_body, bind.
  fold request_page'. rewrite request_page_fetch, Hf. simpl.
  unfold body_outcome.
  destruct items as [| i items']; [reflexivity |].
  destruct (total_reached _ _); [reflexivity |].
  destruct (length (i :: items') <? NUM_OF_ROWS cfg); reflexivity.
Qed.

Lemma paginate_body_raise url base page all_items st e w :
  fetch' url (page_params cfg base page) (world st) = (Raise e, w) ->
  body' url base page all_items st =
  (Raise e, after_get cfg st url (page_params cfg base page) w).
Proof.
  intros Hf. unfold body', paginate_body, bind.
  fold request_page'. rewrite request_page_fetch, Hf. reflexivity.
Qed.

Lemma requests_issued_app l1 l2 :
  requests_issued (l1 ++ l2) = requests_issued l1 + requests_issued l2.
Proof.
  unfold requests_issued. rewrite filter_app, length_app. reflexivity.
Qed.

Lemma loop_past_cap url base fuel page all_items st :
  MAX_PAGES cfg < page ->
  loop' url base fuel page all_items st = Some (Ok all_items, st).
Proof.
  intros H. unfold loop'.
  destruct fuel; simpl;
    (destruct (Nat.leb_spec page (MAX_PAGES cfg)); [lia | reflexivity]).
Qed.

Lemma loop_step url base fuel page all_items st :
  page <= MAX_PAGES cfg ->
  loop' url base (S fuel) page all_items st =
  match body' url base page all_items st with
  | (Raise e, st') => Some (Raise e, st')
  | (Ok (Break items), st') => Some (Ok items, st')
  | (Ok (NextPage page' items), st') => loop' url base fuel page' items st'
  end.
Proof.
  intros H. unfold loop'. simpl.
  destruct (Nat.leb_spec page (MAX_PAGES cfg)); [reflexivity | lia].
Qed.

Lemma requests_after_get (st : state World) url params w :
  requests_issued (trace (after_get cfg st url params w))
  = requests_issued (trace st) + 1.
Proof. simpl. rewrite requests_issued_app. reflexivity. Qed.

Lemma requests_after_sleep (st : state World) q :
  requests_issued (trace (emit (EvSleep q) st)) = requests_issued (trace st).
Proof. simpl. rewrite requests_issued_app. unfold requests_issued. simpl. lia. Qed.

(** The loop, run with enough fuel from any point: it ends, after [k]
    requests for the pages [page .. page + k - 1], with the accumulated
    Records followed by those of the pages, or with the exception of the
    last of them. *)
Lemma loop_run url base fuel :
  forall page all_items st,
    MAX_PAGES cfg + 1 <= page + fuel ->
    exists r st' k,
      loop' url base fuel page all_items st = Some (r, st')
      /\ requests_issued (trace st') = requests_issued (trace st) + k
      /\ k <= MAX_PAGES cfg + 1 - page
      /\ match r with
         | Ok ds =>
             exists pages,
               pages' url base k page (world st) = (Ok pages, world st')
               /\ ds = all_items ++ records_of pages
         | Raise e => pages' url base k page (world st) = (Raise e, world st')
         end.
Proof.
  assert (Hstop : forall fuel page all_items st,
             MAX_PAGES cfg < page ->
             exists r st' k,
               loop' url base fuel page all_items st = Some (r, st')
               /\ requests_issued (trace st') = requests_issued (trace st) + k
               /\ k <= MAX_PAGES cfg + 1 - page
               /\ match r with
                  | Ok ds =>
                      exists pages,
                        pages' url base k page (world st) = (Ok pages, world st')
                        /\ ds = all_items ++ records_of pages
                  | Raise e =>
                      pages' url base k page (world st) = (Raise e, world st')
                  end).
  { intros f page all_items st Hgt.
    exists (Ok all_items), st, 0. rewrite loop_past_cap by assumption.
    repeat split; [lia | lia |].
    exists []. split; [reflexivity |].
    unfold records_of. simpl. now rewrite app_nil_r. }
  induction fuel as [| fuel IH]; intros page all_items st Hfuel.
  - apply Hstop. lia.
  - destruct (Nat.le_gt_cases page (MAX_PAGES cfg)) as [Hle | Hgt];
      [| now apply Hstop].
    rewrite loop_step by assumption.
    destruct (fetch' url (page_params cfg base page) (world st)) as [[[items meta] | e] w] eqn:Hf.
    + rewrite (paginate_body_ok _ _ _ _ _ _ _ _ Hf).
      assert (Hone : pages' url base 1 page (world st) = (Ok [(items, meta)], w)).
      { unfold pages'. simpl. fold fetch'. now rewrite Hf. }
      assert (Hbreak : forall ds, ds = all_items ++ items ->
                exists r st' k,
                  Some (Ok ds, after_get cfg st url (page_params cfg base page) w) = Some (r, st')
                  /\ requests_issued (trace st') = requests_issued (trace st) + k
                  /\ k <= MAX_PAGES cfg + 1 - page
                  /\ match r with
                     | Ok ds =>
                         exists pages,
                           pages' url base k page (world st) = (Ok pages, world st')
                           /\ ds = all_items ++ records_of pages
                     | Raise e =>
                         pages' url base k page (world st) = (Raise e, world st')
                     end).
      { intros ds ->. exists (Ok (all_items ++ items)), (after_get cfg st url (page_params cfg base page) w), 1.
        split; [reflexivity |].
        split; [apply requests_after_get |].
        split; [lia |].
        exists [(items, meta)]. split; [exact Hone |].
        unfold records_of. simpl. now rewrite app_nil_r. }
      unfold body_outcome.
      destruct items as [| i items'].
      * apply Hbreak. now rewrite app_nil_r.
      * destruct (total_reached _ _); [now apply Hbreak |].
        destruct (length (i :: items') <? NUM_OF_ROWS cfg); [now apply Hbreak |].
        destruct (IH (page + 1) (all_items ++ i :: items')
                     (emit (EvSleep (SLEEP_SEC cfg)) (after_get cfg st url (page_params cfg base page) w)))
          as (r & st' & k & Hrun & Hreq & Hk & Hres); [lia |].
        exists r, st', (S k).
        split; [exact Hrun |].
        split; [rewrite Hreq, requests_after_sleep, requests_after_get; lia |].
        split; [lia |].
        assert (Hcons : forall ps,
                   pages' url base k (page + 1) w = (Ok ps, world st') ->
                   pages' url base (S k) page (world st)
                   = (Ok ((i :: items', meta) :: ps), world st')).
        { intros ps Hps. unfold pages'. simpl. fold fetch'.
          rewrite Hf. fold pages'. now rewrite Hps. }
        destruct r as [ds | e].
        -- destruct Hres as (ps & Hps & ->). simpl in Hps.
           exists ((i :: items', meta) :: ps). split; [now apply Hcons |].
           unfold records_of. simpl. now rewrite <- app_assoc.
        -- simpl in Hres. unfold pages'. simpl. fold fetch'.
           rewrite Hf. fold pages'. now rewrite Hres.
    + rewrite (paginate_body_raise _ _ _ _ _ _ _ Hf).
      exists (Raise e), (after_get cfg st url (page_params cfg base page) w), 1.
      split; [reflexivity |].
      split; [apply requests_after_get |].
      split; [lia |].
      unfold pages'. simpl. fold fetch'. now rewrite Hf.
Qed.

Lemma total_not_reached meta (all_items : list record) :
  total_out_of_reach cfg meta ->
  length all_items <= MAX_PAGES cfg * NUM_OF_ROWS cfg ->
  total_reached (_extract_total_count meta) all_items = false.
Proof.
  intros Hout Hlen. unfold total_reached.
  destruct (_extract_total_count meta) as [tc |] eqn:Htc; [| reflexivity].
  specialize (Hout tc Htc).
  apply Z.leb_gt. lia.
Qed.

(** Against an endpoint that always serves a full page the loop runs up
    to the cap. *)
Lemma loop_full_pages url base fuel :
  always_full_page json_loads ET_fromstring requests_get cfg ->
  forall page all_items st,
    MAX_PAGES cfg + 1 <= page + fuel ->
    1 <= page ->
    length all_items = (page - 1) * NUM_OF_ROWS cfg ->
    exists ds st',
      loop' url base fuel page all_items st = Some (Ok ds, st')
      /\ requests_issued (trace st')
         = requests_issued (trace st) + (MAX_PAGES cfg + 1 - page).
Proof.
  intros [Hpos Hfull].
  induction fuel as [| fuel IH]; intros page all_items st Hfuel Hpage Hlen.
  - exists all_items, st. rewrite loop_past_cap by lia. split; [reflexivity | lia].
  - destruct (Nat.le_gt_cases page (MAX_PAGES cfg)) as [Hle | Hgt].
    2:{ exists all_items, st. rewrite loop_past_cap by lia.
        split; [reflexivity | lia]. }
    rewrite loop_step by assumption.
    destruct (Hfull url (page_params cfg base page) (world st))
      as (items & meta & w & Hf & Hn & Hout).
    fold fetch' in Hf.
    rewrite (paginate_body_ok _ _ _ _ _ _ _ _ Hf).
    unfold body_outcome.
    destruct items as [| i items']; [simpl in Hn; lia |].
    assert (Hacc : length (all_items ++ i :: items') = page * NUM_OF_ROWS cfg).
    { rewrite length_app, Hlen, Hn. nia. }
    rewrite total_not_reached; [| assumption | rewrite Hacc; nia].
    rewrite Hn, Nat.ltb_irrefl.
    destruct (IH (page + 1) (all_items ++ i :: items')
                 (emit (EvSleep (SLEEP_SEC cfg))
                       (after_get cfg st url (page_params cfg base page) w)))
      as (ds & st' & Hrun & Hreq); [lia | lia | |].
    { rewrite Hacc. f_equal. lia. }
    exists ds, st'. split; [exact Hrun |].
    rewrite Hreq, requests_after_sleep, requests_after_get. lia.
Qed.

(** C8: whatever the endpoint does, [paginate] returns after at most
    [MAX_PAGES] page requests; against an endpoint that serves a full page
    every time, so that no natural stop fires, it returns after exactly
    [MAX_PAGES] requests (five when the cap is five). *)
Theorem paginate_hard_cap url base w :
  (exists r st',
      paginate json_loads ET_fromstring requests_get cfg url base (start w)
      = Some (r, st')
      /\ requests_issued (trace st') <= MAX_PAGES cfg)
  /\ (always_full_page json_loads ET_fromstring requests_get cfg ->
      exists ds st',
        paginate json_loads ET_fromstring requests_get cfg url base (start w)
        = Some (Ok ds, st')
        /\ requests_issued (trace st') = MAX_PAGES cfg).
Proof.
  split.
  - destruct (loop_run url base (MAX_PAGES cfg) 1 [] (start w))
      as (r & st' & k & Hrun & Hreq & Hk & _); [lia |].
    exists r, st'. split; [exact Hrun |].
    rewrite Hreq. unfold requests_issued. simpl. lia.
  - intros Hfull.
    destruct (loop_full_pages url base (MAX_PAGES cfg) Hfull 1 [] (start w))
      as (ds & st' & Hrun & Hreq); [lia | lia | reflexivity |].
    exists ds, st'. split; [exact Hrun |].
    rewrite Hreq. unfold requests_issued. simpl. lia.
Qed.

(** C9: the Dataset [paginate] returns is the concatenation, in page order,
    of the Records of every page it fetched (pages 1 to the number of
    requests issued): nothing is dropped or reordered, and the page at
    which a stop fires is included in full. *)
Theorem paginate_concatenates_pages url base w ds st' :
  paginate json_loads ET_fromstring requests_get cfg url base (start w)
  = Some (Ok ds, st') ->
  exists pages,
    fetch_pages json_loads ET_fromstring requests_get cfg url base
                (requests_issued (trace st')) 1 w
    = (Ok pages, world st')
    /\ ds = records_of pages.
Proof.
  intros Hrun.
  destruct (loop_run url base (MAX_PAGES cfg) 1 [] (start w))
    as (r & st1 & k & Hrun' & Hreq & _ & Hres); [lia |].
  unfold loop' in Hrun'. unfold paginate in Hrun. rewrite Hrun in Hrun'.
  injection Hrun' as <- <-.
  destruct Hres as (pages & Hpages & ->).
  exists pages. split; [| reflexivity].
  rewrite Hreq. exact Hpages.
Qed.

Lemma fetch_unfold url params w resp w' :
  requests_get w url params (TIMEOUT cfg) = (Ok resp, w') ->
  raise_for_status resp = Ok tt ->
  fetch' url params w
  = (extract_items json_loads ET_fromstring (resp_body resp)
                   (headers_get resp "Content-Type" EmptyString), w').
Proof.
  intros Hget Hstatus. unfold fetch', fetch. rewrite Hget. simpl.
  rewrite Hstatus. reflexivity.
Qed.

Lemma extract_items_malformed resp e :
  malformed json_loads ET_fromstring resp e ->
  extract_items json_loads ET_fromstring (resp_body resp)
                (headers_get resp "Content-Type" EmptyString) = Raise e.
Proof.
  unfold malformed, extract_items, parse_xml_items.
  destruct (is_json_response _ _); intros ->; reflexivity.
Qed.

Lemma extract_items_json resp data :
  is_json_response (resp_body resp) (headers_get resp "Content-Type" EmptyString) = true ->
  json_loads (resp_body resp) = Ok data ->
  extract_items json_loads ET_fromstring (resp_body resp)
                (headers_get resp "Content-Type" EmptyString) = extract_json_items data.
Proof.
  intros Hjson Hload. unfold extract_items. rewrite Hjson, Hload. reflexivity.
Qed.

(** One pass of the loop at which the declared total is reached. *)
Lemma loop_stops_at_total url base fuel page all_items st items meta w tc :
  page <= MAX_PAGES cfg ->
  fetch' url (page_params cfg base page) (world st) = (Ok (items, meta), w) ->
  _extract_total_count meta = Some tc ->
  (tc <= Z.of_nat (length (all_items ++ items)))%Z ->
  loop' url base (S fuel) page all_items st
  = Some (Ok (all_items ++ items),
          after_get cfg st url (page_params cfg base page) w).
Proof.
  intros Hle Hf Htc Hreach.
  rewrite loop_step by assumption.
  rewrite (paginate_body_ok _ _ _ _ _ _ _ _ Hf).
  unfold body_outcome.
  destruct items as [| i items'].
  - now rewrite app_nil_r.
  - rewrite Htc. unfold total_reached.
    now rewrite (proj2 (Z.leb_le _ _) Hreach).
Qed.

(** One pass of the loop at which the page is full and the total is
    declared but not reached. *)
Lemma loop_continues url base fuel page all_items st items meta w tc :
  page <= MAX_PAGES cfg ->
  fetch' url (page_params cfg base page) (world st) = (Ok (items, meta), w) ->
  _extract_total_count meta = Some tc ->
  (Z.of_nat (length (all_items ++ items)) < tc)%Z ->
  length items = NUM_OF_ROWS cfg ->
  0 < NUM_OF_ROWS cfg ->
  loop' url base (S fuel) page all_items st
  = loop' url base fuel (page + 1) (all_items ++ items)
          (emit (EvSleep (SLEEP_SEC cfg))
                (after_get cfg st url (page_params cfg base page) w)).
Proof.
  intros Hle Hf Htc Hbelow Hn Hpos.
  rewrite loop_step by assumption.
  rewrite (paginate_body_ok _ _ _ _ _ _ _ _ Hf).
  unfold body_outcome.
  destruct items as [| i items']; [simpl in Hn; lia |].
  rewrite Htc. unfold total_reached.
  rewrite (proj2 (Z.leb_gt _ _) Hbelow).
  rewrite Hn, Nat.ltb_irrefl. reflexivity.
Qed.

(** C3, as the code has it: a body its parser rejects makes [paginate]
    raise the parser's exception at that page, whatever was accumulated;
    a well-formed JSON body from which no item is extracted is not an
    error: it is an empty page, and the loop returns what it has
    accumulated. *)
Theorem paginate_on_unusable_body url base fuel page all_items st resp w :
  page <= MAX_PAGES cfg ->
  requests_get (world st) url (page_params cfg base page) (TIMEOUT cfg)
  = (Ok resp, w) ->
  raise_for_status resp = Ok tt ->
  (forall e,
      malformed json_loads ET_fromstring resp e ->
      paginate_loop json_loads ET_fromstring requests_get cfg
                    url base (S fuel) page all_items st
      = Some (Raise e, after_get cfg st url (page_params cfg base page) w))
  /\ (forall data,
         json_without_items json_loads resp data ->
         paginate_loop json_loads ET_fromstring requests_get cfg
                       url base (S fuel) page all_items st
         = Some (Ok all_items, after_get cfg st url (page_params cfg base page) w)).
Proof.
  intros Hle Hget Hstatus.
  pose proof (fetch_unfold _ _ _ _ _ Hget Hstatus) as Hf.
  split.
  - intros e Hbad.
    rewrite (extract_items_malformed _ _ Hbad) in Hf.
    fold loop'. rewrite loop_step by assumption.
    now rewrite (paginate_body_raise _ _ _ _ _ _ _ Hf).
  - intros data (Hjson & Hload & Hnone).
    rewrite (extract_items_json _ _ Hjson Hload), Hnone in Hf.
    fold loop'. rewrite loop_step by assumption.
    now rewrite (paginate_body_ok _ _ _ _ _ _ _ _ Hf).
Qed.

End PaginatorFacts.


(** C1: with the module's settings (pages of 100, at most 50 pages),
    against an endpoint that declares a total of 250 and serves pages of
    100, 100 and 50 Records, [paginate] issues exactly three requests and
    returns the 250 Records; and in any pass of the loop, once the total
    declared by the page's metadata is reached by the accumulated Records,
    the loop returns them without a further request. *)
Theorem paginate_declared_total
  (json_loads : string -> result value) (ET_fromstring : string -> result element)
  (World : Type)
  (requests_get : World -> string -> dict -> nat -> result response * World) :
  (forall cfg url base fuel page all_items st items meta w tc,
      page <= MAX_PAGES cfg ->
      fetch json_loads ET_fromstring requests_get cfg
            url (page_params cfg base page) (world st) = (Ok (items, meta), w) ->
      _extract_total_count meta = Some tc ->
      (tc <= Z.of_nat (length (all_items ++ items)))%Z ->
      paginate_loop json_loads ET_fromstring requests_get cfg
                    url base (S fuel) page all_items st
      = Some (Ok (all_items ++ items),
              after_get cfg st url (page_params cfg base page) w))
  /\ (forall key url base w0 w1 w2 w3 i1 i2 i3 m1 m2 m3,
         let cfg := module_config key in
         let get := fetch json_loads ET_fromstring requests_get cfg url in
         get (page_params cfg base 1) w0 = (Ok (i1, m1), w1) ->
         get (page_params cfg base 2) w1 = (Ok (i2, m2), w2) ->
         get (page_params cfg base 3) w2 = (Ok (i3, m3), w3) ->
         length i1 = 100 -> length i2 = 100 -> length i3 = 50 ->
         _extract_total_count m1 = Some 250%Z ->
         _extract_total_count m2 = Some 250%Z ->
         _extract_total_count m3 = Some 250%Z ->
         exists st',
           paginate json_loads ET_fromstring requests_get cfg url base (start w0)
           = Some (Ok (i1 ++ i2 ++ i3), st')
           /\ world st' = w3
           /\ requests_issued (trace st') = 3
           /\ length (i1 ++ i2 ++ i3) = 250).
Proof.
  split.
  - intros. now apply loop_stops_at_total with (meta := meta) (tc := tc).
  - intros key url base w0 w1 w2 w3 i1 i2 i3 m1 m2 m3 cfg get
           H1 H2 H3 L1 L2 L3 T1 T2 T3.
    unfold paginate. change (MAX_PAGES cfg) with 50.
    rewrite (loop_continues _ _ _ _ cfg url base 49 1 [] (start w0) i1 m1 w1 250%Z);
      [| cbn; lia | exact H1 | exact T1 | simpl; lia | exact L1 | cbn; lia].
    rewrite (loop_continues _ _ _ _ cfg url base 48 2 ([] ++ i1) _ i2 m2 w2 250%Z);
      [| cbn; lia | exact H2 | exact T2
       | rewrite !length_app, L1, L2; simpl; lia | exact L2 | cbn; lia].
    rewrite (loop_stops_at_total _ _ _ _ cfg url base 47 3 (([] ++ i1) ++ i2) _
                                 i3 m3 w3 250%Z);
      [| cbn; lia | exact H3 | exact T3
       | rewrite !length_app, L1, L2, L3; simpl; lia].
    eexists. split; [simpl; now rewrite <- app_assoc |].
    split; [reflexivity |].
    split.
    + reflexivity.
    + rewrite !length_app, L1, L2, L3. reflexivity.
Qed.


(** ** The paginator on the test doubles *)

Lemma paginate_declared_total_witness :
  (paginate_loop (Mock.loads Mock.documents) Mock.fromstring Mock.scripted
                 (module_config "key") "url" [] 1 50 (Mock.records 4900)
                 (start [Ok (Mock.json_response "last page of 250")])
   = Some (Ok (Mock.records 4900 ++ Mock.records 50),
           after_get (module_config "key")
                     (start [Ok (Mock.json_response "last page of 250")])
                     "url" (page_params (module_config "key") [] 50) []))
  /\ exists st',
      paginate (Mock.loads Mock.documents) Mock.fromstring Mock.scripted
               (module_config "key") "url" [] (start Mock.served_250)
      = Some (Ok (Mock.records 100 ++ Mock.records 100 ++ Mock.records 50), st')
      /\ world st' = [Ok (Mock.json_response "full page of 250")]
      /\ requests_issued (trace st') = 3
      /\ length (Mock.records 100 ++ Mock.records 100 ++ Mock.records 50) = 250.
Proof.
  split.
  - apply (proj1 (paginate_declared_total (Mock.loads Mock.documents) Mock.fromstring
                                          _ Mock.scripted))
      with (meta := Mock.envelope 50 (PyInt 250)) (tc := 250%Z).
    + cbn. lia.
    + vm_compute. reflexivity.
    + vm_compute. reflexivity.
    + vm_compute. intros H; discriminate H.
  - apply (proj2 (paginate_declared_total (Mock.loads Mock.documents) Mock.fromstring
                                          _ Mock.scripted))
      with (w1 := tl Mock.served_250) (w2 := tl (tl Mock.served_250))
           (m1 := Mock.envelope 100 (PyInt 250))
           (m2 := Mock.envelope 100 (PyInt 250))
           (m3 := Mock.envelope 50 (PyInt 250));
      vm_compute; reflexivity.
Defined.

Lemma paginate_hard_cap_witness :
  exists ds st',
    paginate (Mock.loads Mock.documents) Mock.fromstring
             (Mock.constant (Mock.json_response "pair, no total"))
             Mock.small_config "url" [] (start tt)
    = Some (Ok ds, st')
    /\ requests_issued (trace st') = 5.
Proof.
  apply (proj2 (paginate_hard_cap (Mock.loads Mock.documents) Mock.fromstring unit
                 (Mock.constant (Mock.json_response "pair, no total"))
                 Mock.small_config "url" [] tt)).
  split.
  - cbn. lia.
  - intros url params [].
    exists [[("a", PyStr "1")]; [("a", PyStr "2")]],
           (PyList [PyDict [("a", PyStr "1")]; PyDict [("a", PyStr "2")]]), tt.
    split; [reflexivity |].
    split; [reflexivity |].
    intros tc H. vm_compute in H. discriminate H.
Defined.

Lemma paginate_concatenates_pages_witness :
  exists ds st',
    paginate (Mock.loads Mock.documents) Mock.fromstring Mock.scripted
             (module_config "key") "url" [] (start Mock.served_over_150)
    = Some (Ok ds, st')
    /\ length ds = 200
    /\ exists pages,
        fetch_pages (Mock.loads Mock.documents) Mock.fromstring Mock.scripted
                    (module_config "key") "url" []
                    (requests_issued (trace st')) 1 Mock.served_over_150
        = (Ok pages, world st')
        /\ ds = records_of pages.
Proof.
  eexists. eexists.
  split; [vm_compute; reflexivity |].
  split; [vm_compute; reflexivity |].
  apply paginate_concatenates_pages. vm_compute. reflexivity.
Defined.

Lemma paginate_on_unusable_body_witness :
  paginate_loop (Mock.loads Mock.documents) Mock.fromstring Mock.scripted
                (module_config "key") "url" [] 49 2 (Mock.records 100)
                (start [Ok (Mock.json_response "<html>busy</html>")])
  = Some (Raise JSONDecodeError,
          after_get (module_config "key")
                    (start [Ok (Mock.json_response "<html>busy</html>")])
                    "url" (page_params (module_config "key") [] 2) [])
  /\ paginate_loop (Mock.loads Mock.documents) Mock.fromstring Mock.scripted
                   (module_config "key") "url" [] 49 2 (Mock.records 100)
                   (start [Ok (Mock.json_response "[]")])
     = Some (Ok (Mock.records 100),
             after_get (module_config "key")
                       (start [Ok (Mock.json_response "[]")])
                       "url" (page_params (module_config "key") [] 2) []).
Proof.
  split.
  - apply (fun Hle Hget Hst =>
             proj1 (paginate_on_unusable_body
                      (Mock.loads Mock.documents) Mock.fromstring _ Mock.scripted
                      (module_config "key") "url" [] 48 2 (Mock.records 100)
                      (start [Ok (Mock.json_response "<html>busy</html>")])
                      (Mock.json_response "<html>busy</html>") [] Hle Hget Hst)).
    + cbn. lia.
    + reflexivity.
    + reflexivity.
    + vm_compute. reflexivity.
  - apply (fun Hle Hget Hst =>
             proj2 (paginate_on_unusable_body
                      (Mock.loads Mock.documents) Mock.fromstring _ Mock.scripted
                      (module_config "key") "url" [] 48 2 (Mock.records 100)
                      (start [Ok (Mock.json_response "[]")])
                      (Mock.json_response "[]") [] Hle Hget Hst)
             (PyList [])).
    + cbn. lia.
    + reflexivity.
    + reflexivity.
    + vm_compute. repeat split.
Defined.

(** A body [null] under a JSON content type: no exception, an empty page. *)
Lemma null_body_ends_collection_silently :
  json_without_items (Mock.loads Mock.documents) (Mock.json_response "null") PyNone
  /\ extract_items (Mock.loads Mock.documents) Mock.fromstring "null"
                   "application/json;charset=UTF-8" = Ok ([], PyNone)
  /\ paginate (Mock.loads Mock.documents) Mock.fromstring Mock.scripted
              (module_config "key") "url" []
              (start [Ok (Mock.json_response "null")])
     = Some (Ok [],
             after_get (module_config "key")
                       (start [Ok (Mock.json_response "null")])
                       "url" (page_params (module_config "key") [] 1) []).
Proof.
  split; [| split]; vm_compute; repeat split.
Qed.

(** * Facts about the normaliser *)

Lemma lookup_mem {V} k (d : list (string * V)) v :
  PyDict.lookup k d = Some v -> PyDict.mem k d = true.
Proof. unfold PyDict.mem. now intros ->. Qed.

Lemma lookup_get k d v :
  PyDict.lookup k d = Some v -> PyDict.get d k = v.
Proof. unfold PyDict.get. now intros ->. Qed.

Lemma lookup_none_get k d :
  PyDict.lookup k d = None -> PyDict.get d k = PyNone.
Proof. unfold PyDict.get. now intros ->. Qed.

Lemma lookup_some_nonempty {V} k (d : list (string * V)) v :
  PyDict.lookup k d = Some v -> d <> [].
Proof. destruct d; [discriminate | discriminate]. Qed.

Lemma or_empty_dict_nonempty d :
  d <> [] -> Py.or_empty_dict (PyDict d) = PyDict d.
Proof. destruct d; [congruence | reflexivity]. Qed.

(** A mapping with an "item" key is coerced through that key's value. *)
Lemma _normalize_items_item d :
  PyDict.mem "item" d = true ->
  _normalize_items (PyDict d) = _normalize_items (PyDict.get d "item").
Proof.
  intros Hmem. cbn -[String.eqb PyDict.mem PyDict.get]. rewrite Hmem.
  unfold PyDict.mem, PyDict.get in *.
  induction d as [| [k v] d IH]; [discriminate |].
  cbn -[String.eqb] in *. destruct (String.eqb "item" k); [reflexivity |].
  now apply IH.
Qed.

Lemma _normalize_items_plain d :
  PyDict.mem "item" d = false -> _normalize_items (PyDict d) = [d].
Proof. intros Hmem. cbn -[String.eqb PyDict.mem]. now rewrite Hmem. Qed.

(** With a "response" key, the nested path alone decides. *)
Lemma extract_json_items_response d :
  PyDict.mem "response" d = true ->
  extract_json_items (PyDict d)
  = (let? b := Py.get_attr_get (Py.or_empty_dict (PyDict.get d "response")) "body" in
     let? items_obj := Py.get_attr_get (Py.or_empty_dict b) "items" in
     Ok (_normalize_items items_obj, PyDict d))%result.
Proof.
  intros Hmem. unfold extract_json_items. cbn [Py.dict_with_key].
  rewrite Hmem. cbn [Py.get_attr_get rbind].
  destruct (Py.get_attr_get (Py.or_empty_dict (PyDict.get d "response")) "body");
    reflexivity.
Qed.

Lemma extract_json_items_path data v :
  path_items data = Some v ->
  extract_json_items data = Ok (_normalize_items v, data).
Proof.
  destruct data as [| | | | | | d]; try discriminate. cbn [path_items].
  destruct (PyDict.lookup "response" d) as [[| | | | | | r] |] eqn:Hr; try discriminate.
  destruct (PyDict.lookup "body" r) as [[| | | | | | b] |] eqn:Hb; try discriminate.
  intros Hi.
  rewrite extract_json_items_response by (eapply lookup_mem; eassumption).
  rewrite (lookup_get _ _ _ Hr).
  rewrite or_empty_dict_nonempty by (eapply lookup_some_nonempty; eassumption).
  cbn [Py.get_attr_get rbind]. rewrite (lookup_get _ _ _ Hb).
  rewrite or_empty_dict_nonempty by (eapply lookup_some_nonempty; eassumption).
  cbn [Py.get_attr_get rbind]. now rewrite (lookup_get _ _ _ Hi).
Qed.

Lemma or_empty_dict_cases v :
  (exists d, Py.or_empty_dict v = PyDict d /\ (v = PyDict d \/ d = []))
  \/ (Py.truthy v = true /\ Py.is_dict v = false /\ Py.or_empty_dict v = v).
Proof.
  unfold Py.or_empty_dict.
  destruct (Py.truthy v) eqn:Ht.
  - destruct v; try (right; repeat split; reflexivity).
    left. eexists; split; [reflexivity | now left].
  - left. exists []. split; [reflexivity | now right].
Qed.

Lemma get_attr_get_non_dict v k :
  Py.is_dict v = false -> Py.get_attr_get v k = Raise AttributeError.
Proof. destruct v; try reflexivity. discriminate. Qed.

Lemma extract_json_items_path_fails d :
  PyDict.mem "response" d = true ->
  path_items (PyDict d) = None ->
  extract_json_items (PyDict d) = Ok ([], PyDict d)
  \/ extract_json_items (PyDict d) = Raise AttributeError.
Proof.
  intros Hmem Hpath. rewrite extract_json_items_response by assumption.
  cbn [path_items] in Hpath. unfold PyDict.get.
  destruct (PyDict.lookup "response" d) as [response |] eqn:Hr;
    [| left; reflexivity].
  destruct (or_empty_dict_cases response)
    as [(r & -> & Hr') | (_ & Hnd & ->)].
  2:{ right. now rewrite get_attr_get_non_dict. }
  cbn [Py.get_attr_get rbind].
  assert (Hb : PyDict.lookup "body" r = None
               \/ (exists b, PyDict.lookup "body" r = Some b /\ response = PyDict r)).
  { destruct (PyDict.lookup "body" r) as [b |] eqn:Hb; [| now left].
    right. exists b. split; [reflexivity |].
    destruct Hr' as [-> | ->]; [reflexivity | discriminate]. }
  destruct Hb as [Hb | (b & Hb & ->)].
  { unfold PyDict.get. rewrite Hb. left. reflexivity. }
  unfold PyDict.get. rewrite Hb. rewrite Hb in Hpath.
  destruct (or_empty_dict_cases b) as [(bd & -> & Hb') | (_ & Hnd & ->)].
  2:{ right. now rewrite get_attr_get_non_dict. }
  cbn [Py.get_attr_get rbind]. left.
  destruct Hb' as [-> | ->]; [| reflexivity].
  unfold PyDict.get. now rewrite Hpath.
Qed.

(** C2, as the code has it: the item collection of a parsed JSON value is
    chosen by its top-level keys.  When the nested response.body.items path
    yields a value, that value is coerced.  A mapping with a "response" key
    is resolved through that path alone: when the path yields nothing the
    result is no Records (or an attribute error), whatever else the mapping
    holds.  Only without a "response" key is a top-level items field
    coerced, and only with neither key (or for a value that is not a
    mapping) is the whole value coerced. *)
Theorem extract_items_probes
  (json_loads : string -> result value) (ET_fromstring : string -> result element)
  (text content_type : string) (data : value) :
  is_json_response text content_type = true ->
  json_loads text = Ok data ->
  let items := extract_items json_loads ET_fromstring text content_type in
  (forall v, path_items data = Some v -> items = Ok (_normalize_items v, data))
  /\ (Py.dict_with_key data "response" = true -> path_items data = None ->
      items = Ok ([], data) \/ items = Raise AttributeError)
  /\ (forall v, Py.dict_with_key data "response" = false ->
                top_items data = Some v ->
                items = Ok (_normalize_items v, data))
  /\ (Py.dict_with_key data "response" = false -> top_items data = None ->
      items = Ok (_normalize_items data, data)).
Proof.
  intros Hjson Hload items.
  assert (Hitems : items = extract_json_items data).
  { unfold items, extract_items. now rewrite Hjson, Hload. }
  rewrite Hitems. clear items Hitems.
  split; [apply extract_json_items_path |].
  split.
  { destruct data; try discriminate. apply extract_json_items_path_fails. }
  split.
  - intros v Hresp Htop. unfold extract_json_items. rewrite Hresp.
    destruct data as [| | | | | | d]; try discriminate.
    cbn [top_items] in Htop. cbn [Py.dict_with_key].
    rewrite (lookup_mem _ _ _ Htop). cbn [Py.get_attr_get rbind].
    now rewrite (lookup_get _ _ _ Htop).
  - intros Hresp Htop. unfold extract_json_items. rewrite Hresp.
    destruct data as [| | | | | | d]; try reflexivity.
    cbn [top_items] in Htop. cbn [Py.dict_with_key].
    unfold PyDict.mem. now rewrite Htop.
Qed.

Lemma extract_items_probes_witness :
  let loads := Mock.loads Mock.documents in
  extract_items loads Mock.fromstring "full page of 250" "application/json"
  = Ok (Mock.records 100, Mock.envelope 100 (PyInt 250))
  /\ extract_items loads Mock.fromstring "error envelope" "application/json"
     = Ok ([], PyDict [("response", PyDict [("header", PyDict [("resultCode", PyStr "03")])]);
                       ("items", PyList [PyDict [("a", PyStr "1")]])])
  /\ extract_items loads Mock.fromstring "flat items" "application/json"
     = Ok ([[("a", PyStr "1")]],
           PyDict [("items", PyList [PyDict [("a", PyStr "1")]])])
  /\ extract_items loads Mock.fromstring "pair, no total" "application/json"
     = Ok ([[("a", PyStr "1")]; [("a", PyStr "2")]],
           PyList [PyDict [("a", PyStr "1")]; PyDict [("a", PyStr "2")]]).
Proof.
  intros loads.
  split; [| split; [| split]].
  - apply (fun Hj Hl =>
             proj1 (extract_items_probes loads Mock.fromstring
                      "full page of 250" "application/json"
                      (Mock.envelope 100 (PyInt 250)) Hj Hl)
                   (PyDict [("item", PyList (map Mock.item (seq 0 100)))]));
      reflexivity.
  - destruct (proj1 (proj2 (extract_items_probes loads Mock.fromstring
                         "error envelope" "application/json"
                         (PyDict [("response",
                                   PyDict [("header", PyDict [("resultCode", PyStr "03")])]);
                                  ("items", PyList [PyDict [("a", PyStr "1")]])])
                         eq_refl eq_refl)) eq_refl eq_refl)
      as [H | H]; [exact H | discriminate H].
  - apply (fun Hj Hl =>
             proj1 (proj2 (proj2 (extract_items_probes loads Mock.fromstring
                      "flat items" "application/json"
                      (PyDict [("items", PyList [PyDict [("a", PyStr "1")]])])
                      Hj Hl)))
                   (PyList [PyDict [("a", PyStr "1")]]));
      reflexivity.
  - apply (fun Hj Hl =>
             proj2 (proj2 (proj2 (extract_items_probes loads Mock.fromstring
                      "pair, no total" "application/json"
                      (PyList [PyDict [("a", PyStr "1")]; PyDict [("a", PyStr "2")]])
                      Hj Hl))));
      reflexivity.
Defined.

(** A mapping whose "response" holds no body and which has a top-level
    items field: probe (a) fails, probe (b) would find one item, and the
    code extracts none. *)
Lemma top_level_items_ignored_under_response :
  let data := PyDict [("response", PyDict []);
                      ("items", PyList [PyDict [("a", PyStr "1")]])] in
  path_items data = None
  /\ top_items data = Some (PyList [PyDict [("a", PyStr "1")]])
  /\ _normalize_items (probed_items data) = [[("a", PyStr "1")]]
  /\ extract_json_items data = Ok ([], data).
Proof. repeat split. Qed.

Lemma mapping_or_falsy_or_empty v :
  mapping_or_falsy v -> exists d, Py.or_empty_dict v = PyDict d.
Proof.
  unfold Py.or_empty_dict. intros [Hd | Hf].
  - destruct v; try discriminate. destruct (Py.truthy _); eauto.
  - rewrite Hf. eauto.
Qed.

(** C10, as the code has it: for a top-level mapping with a "response"
    key, the lookups of [extract_items] are safe when the value under
    "response" is a mapping or falsy and the value under its "body" is a
    mapping or falsy as well; when "response" holds a truthy value that is
    not a mapping (as in a response of the form response: "error"),
    [extract_items] raises an attribute error instead of returning
    Records. *)
Theorem extract_items_response_lookups
  (json_loads : string -> result value) (ET_fromstring : string -> result element)
  (text content_type : string) (d : dict) :
  is_json_response text content_type = true ->
  json_loads text = Ok (PyDict d) ->
  PyDict.mem "response" d = true ->
  let response := PyDict.get d "response" in
  (mapping_or_falsy response -> mapping_or_falsy (body_under response) ->
   exists items,
     extract_items json_loads ET_fromstring text content_type = Ok (items, PyDict d))
  /\ (Py.truthy response = true -> Py.is_dict response = false ->
      extract_items json_loads ET_fromstring text content_type
      = Raise AttributeError).
Proof.
  intros Hjson Hload Hmem response.
  assert (Hitems : extract_items json_loads ET_fromstring text content_type
                   = extract_json_items (PyDict d)).
  { unfold extract_items. now rewrite Hjson, Hload. }
  rewrite Hitems, extract_json_items_response by assumption.
  fold response. split.
  - intros Hresp Hbody.
    destruct (mapping_or_falsy_or_empty _ Hresp) as (r & Hr).
    unfold body_under in Hbody. rewrite Hr in *.
    cbn [Py.get_attr_get rbind].
    destruct (mapping_or_falsy_or_empty _ Hbody) as (b & ->).
    cbn [Py.get_attr_get rbind]. eauto.
  - intros Ht Hnd. unfold Py.or_empty_dict. rewrite Ht.
    now rewrite get_attr_get_non_dict.
Qed.

Lemma extract_items_response_lookups_witness :
  let loads := Mock.loads Mock.documents in
  (exists items,
      extract_items loads Mock.fromstring "full page of 250" "application/json"
      = Ok (items, Mock.envelope 100 (PyInt 250)))
  /\ extract_items loads Mock.fromstring "response is a string" "application/json"
     = Raise AttributeError.
Proof.
  intros loads. split.
  - apply (proj1 (extract_items_response_lookups loads Mock.fromstring
                    "full page of 250" "application/json" _
                    eq_refl eq_refl eq_refl));
      left; reflexivity.
  - apply (proj2 (extract_items_response_lookups loads Mock.fromstring
                    "response is a string" "application/json"
                    [("response", PyStr "error")]
                    eq_refl eq_refl eq_refl));
      reflexivity.
Defined.

(** "response" holds a mapping, as the stated precondition asks, but its
    "body" is a string: the lookup of "items" raises. *)
Lemma body_string_breaks_lookup :
  let d := [("response", PyDict [("body", PyStr "x")])] in
  PyDict.mem "response" d = true
  /\ mapping_or_falsy (PyDict.get d "response")
  /\ extract_json_items (PyDict d) = Raise AttributeError.
Proof. split; [reflexivity |]. split; [left |]; reflexivity. Qed.

(** * Facts about the patterns of [infer_type] *)

Module ReFacts.
Import Re.
















End ReFacts.
(** * The code's patterns recognise the specification's shapes *)












(** * Facts about the ratios of [infer_type] *)

Lemma sum_of_flags flags :
  (fold_right Qplus 0 (map Series.bool_to_float flags)
   == inject_Z (Z.of_nat (length (filter (fun b => b) flags))))%Q.
Proof.
  induction flags as [| b flags IH]; [reflexivity |].
  cbn [map fold_right filter]. rewrite IH. destruct b; cbn [Series.bool_to_float length].
  - rewrite Nat2Z.inj_succ. unfold Z.succ. rewrite inject_Z_plus. ring.
  - ring.
Qed.

Lemma filter_flags {A} (p : A -> bool) l :
  length (filter (fun b => b) (map p l)) = length (filter p l).
Proof.
  induction l as [| x l IH]; [reflexivity |].
  simpl. destruct (p x); simpl; now rewrite IH.
Qed.

(** The comparison of a mean of flags with 0.9 is a comparison of counts. *)
Lemma mean_threshold (p : string -> bool) (s : list string) :
  s <> [] ->
  at_least_090 (Series.mean (map p s)) = fraction_ge_090 p s.
Proof.
  intros Hne. apply eq_iff_eq_true.
  unfold at_least_090, fraction_ge_090, Series.mean.
  rewrite Qle_bool_iff, Nat.leb_le, sum_of_flags, filter_flags, length_map.
  destruct s as [| x s']; [congruence |].
  set (c := length (filter p (x :: s'))).
  cbn [length]. set (m := length s').
  unfold Qle, Qdiv, Qmult, Qinv, inject_Z.
  cbn [Qnum Qden]. rewrite Nat2Z.inj_succ.
  destruct (Z.succ (Z.of_nat m)) as [| q | q] eqn:Hq; try lia.
  cbn [Qnum Qden]. lia.
Qed.




(** The patterns on a few values. *)
Example is_number_examples :
  map is_number ["-12.5"; "0"; "12."; ".5"; "-"; "1e5"; "1.2.3"; "+1"; " 1"]
  = [true; true; false; false; false; false; false; false; false].
Proof. reflexivity. Qed.

Example is_date_examples :
  map is_date ["20250101"; "202501"; "2025-01-01"; "2025-1-01"; "2025/01/01";
               "2025010"; "2025-01-011"]
  = [true; true; true; false; false; false; false].
Proof. reflexivity. Qed.

Example is_int_examples :
  map is_int ["-12"; "007"; "1.0"; EmptyString; "-"; "12a"]
  = [true; true; false; false; false; false].
Proof. reflexivity. Qed.

(** * Facts about the schema summary *)

Lemma In_insert_by {A} (key : A -> string) x y l :
  In y (Pandas.insert_by key x l) <-> y = x \/ In y l.
Proof.
  induction l as [| z l IH]; simpl.
  - intuition congruence.
  - destruct (String.leb (key x) (key z)); simpl; [intuition congruence |].
    rewrite IH. intuition congruence.
Qed.

Lemma In_sort_by {A} (key : A -> string) y l :
  In y (Pandas.sort_by key l) <-> In y l.
Proof.
  induction l as [| x l IH]; simpl; [tauto |].
  rewrite In_insert_by, IH. intuition congruence.
Qed.

Lemma length_insert_by {A} (key : A -> string) x l :
  length (Pandas.insert_by key x l) = S (length l).
Proof.
  induction l as [| z l IH]; simpl; [reflexivity |].
  destruct (String.leb (key x) (key z)); simpl; now rewrite ?IH.
Qed.

Lemma length_sort_by {A} (key : A -> string) l :
  length (Pandas.sort_by key l) = length l.
Proof.
  induction l as [| x l IH]; simpl; [reflexivity |].
  now rewrite length_insert_by, IH.
Qed.

Section SummaryFacts.

Variable to_numeric : string -> option Q.

Let summarize := summarize_dataframe to_numeric.
Let profile := summarize_column to_numeric.

Lemma summarize_no_columns df :
  columns df = [] -> summarize df = Raise (KeyError "column").
Proof. unfold summarize, summarize_dataframe. now intros ->. Qed.

Lemma summarize_some_columns df :
  columns df <> [] ->
  summarize df
  = Ok (Pandas.sort_by column
          (map (fun cs => profile (n_rows df) (fst cs) (snd cs)) (columns df))).
Proof.
  unfold summarize, summarize_dataframe. destruct (columns df); [congruence |].
  reflexivity.
Qed.

(** Every row of the summary is the profile of one column of the frame. *)
Lemma summarize_rows df ps p :
  summarize df = Ok ps -> In p ps ->
  exists col ser, In (col, ser) (columns df) /\ p = profile (n_rows df) col ser.
Proof.
  intros Hs Hin.
  destruct (columns df) as [| c cs] eqn:Hc.
  - rewrite summarize_no_columns in Hs by assumption. discriminate.
  - rewrite summarize_some_columns in Hs by congruence.
    injection Hs as <-. apply In_sort_by, in_map_iff in Hin.
    destruct Hin as ([col ser] & <- & Hin). rewrite Hc in Hin. eauto.
Qed.

Lemma DataFrame_of_columns items col ser :
  In (col, ser) (columns (Pandas.DataFrame_of items)) ->
  ser = column_values col items.
Proof.
  simpl. intros Hin. apply in_map_iff in Hin.
  destruct Hin as (c & Heq & _). now injection Heq as <- <-.
Qed.

(** A row of the summary of a Dataset is the profile of its own column. *)
Lemma summarize_dataset_rows items ps p :
  summarize (Pandas.DataFrame_of items) = Ok ps -> In p ps ->
  p = profile (length items) (column p) (column_values (column p) items).
Proof.
  intros Hs Hin.
  destruct (summarize_rows _ _ _ Hs Hin) as (col & ser & Hcol & ->).
  apply DataFrame_of_columns in Hcol. subst ser. reflexivity.
Qed.

Lemma length_dropna_column col items :
  length (Series.dropna (column_values col items)) = present_count col items.
Proof.
  unfold column_values, present_count.
  induction items as [| r items IH]; [reflexivity |].
  simpl. destruct (Pandas.row_cell col r); simpl; now rewrite IH.
Qed.

End SummaryFacts.
(** ** Rounding *)



Section MissingRate.

Variable to_numeric : string -> option Q.



End MissingRate.



(** C7, as the code has it: [main] does not summarise an endpoint that
    returned no Records; [summarize_dataframe] itself, on the frame of a
    Dataset without Records (a frame without columns), raises a key error
    when it sorts the summary by "column"; on a frame with columns it
    returns one row per column. *)
Theorem summarize_without_records (to_numeric : string -> option Q) :
  main_api to_numeric [] = Ok NoData
  /\ summarize_dataframe to_numeric (Pandas.DataFrame_of [])
     = Raise (KeyError "column")
  /\ forall df,
      match columns df with
      | [] => summarize_dataframe to_numeric df = Raise (KeyError "column")
      | _ => exists ps, summarize_dataframe to_numeric df = Ok ps
                        /\ length ps = length (columns df)
      end.
Proof.
  split; [reflexivity |]. split; [reflexivity |].
  intros df. destruct (columns df) as [| c cs] eqn:Hc.
  - now apply summarize_no_columns.
  - rewrite summarize_some_columns by congruence.
    eexists. split; [reflexivity |].
    now rewrite length_sort_by, length_map, Hc.
Qed.

(** No Records: the summary is not empty, it is an exception. *)
Lemma summarize_of_no_records_raises :
  summarize_dataframe to_numeric_digits (Pandas.DataFrame_of [])
  = Raise (KeyError "column").
Proof. reflexivity. Qed.
(** ** Extrema *)

Section Extremum.

Context {A : Type}.
Variable le : A -> A -> bool.
Hypothesis le_total : forall a b, le a b = true \/ le b a = true.
Hypothesis le_trans : forall a b c, le a b = true -> le b c = true -> le a c = true.




End Extremum.





Lemma string_leb_trans a : forall b c,
  String.leb a b = true -> String.leb b c = true -> String.leb a c = true.
Proof.
  unfold String.leb.
  induction a as [| x a IH]; intros [| y b] [| z c]; cbn [String.compare];
    try congruence.
  unfold Ascii.compare.
  destruct (N.compare_spec (N_of_ascii x) (N_of_ascii y)) as [Hxy | Hxy | Hxy];
    destruct (N.compare_spec (N_of_ascii y) (N_of_ascii z)) as [Hyz | Hyz | Hyz];
    destruct (N.compare_spec (N_of_ascii x) (N_of_ascii z)) as [Hxz | Hxz | Hxz];
    try congruence; try lia.
  apply IH.
Qed.




(** ** The extrema of a column's profile *)




Section ProfileExtrema.

Variable to_numeric : string -> option Q.



End ProfileExtrema.



(** * Further facts about the normaliser *)

(** ** Content-type decision *)

Lemma lstrip_head s :
  match PyStr.lstrip s with
  | EmptyString => True
  | String c _ => PyStr.is_space c = false
  end.
Proof.
  induction s as [| c s IH]; simpl; [exact I |].
  destruct (PyStr.is_space c) eqn:Hc; [exact IH | exact Hc].
Qed.

Lemma rstrip_keeps_head c s :
  PyStr.is_space c = false ->
  exists s', PyStr.rstrip (String c s) = String c s'.
Proof.
  intros Hc. simpl. destruct (PyStr.rstrip s); [rewrite Hc |]; eauto.
Qed.




(** ** Mappings *)

Lemma set_lookup_same {V} k (v : V) d : PyDict.lookup k (PyDict.set k v d) = Some v.
Proof.
  induction d as [| [k' v'] d IH]; cbn -[String.eqb].
  - now rewrite String.eqb_refl.
  - destruct (String.eqb k k') eqn:Hk; cbn -[String.eqb]; rewrite ?String.eqb_refl, ?Hk;
      auto.
Qed.

Lemma set_lookup_other {V} k k' (v : V) d :
  k <> k' -> PyDict.lookup k' (PyDict.set k v d) = PyDict.lookup k' d.
Proof.
  intros Hne.
  assert (Hkk : String.eqb k' k = false) by (apply String.eqb_neq; congruence).
  induction d as [| [k0 v0] d IH]; cbn -[String.eqb].
  - now rewrite Hkk.
  - destruct (String.eqb k k0) eqn:Hk; cbn -[String.eqb].
    + apply String.eqb_eq in Hk. subst k0. now rewrite Hkk.
    + now rewrite IH.
Qed.

Lemma set_keys {V} k (v : V) d :
  PyDict.keys (PyDict.set k v d)
  = if PyDict.mem k d then PyDict.keys d else PyDict.keys d ++ [k].
Proof.
  unfold PyDict.mem, PyDict.keys.
  induction d as [| [k' v'] d IH]; cbn -[String.eqb]; [reflexivity |].
  destruct (String.eqb k k') eqn:Hk; cbn -[String.eqb].
  - apply String.eqb_eq in Hk. now subst.
  - rewrite IH. now destruct (PyDict.lookup k d).
Qed.

Lemma mem_keys {V} k (d : list (string * V)) :
  PyDict.mem k d = true <-> In k (PyDict.keys d).
Proof.
  unfold PyDict.mem, PyDict.keys.
  induction d as [| [k' v'] d IH]; cbn -[String.eqb]; [split; [discriminate | tauto] |].
  destruct (String.eqb k k') eqn:Hk.
  - apply String.eqb_eq in Hk. subst. split; auto.
  - apply String.eqb_neq in Hk. rewrite IH. split; [auto | intros [H | H]; congruence].
Qed.

Lemma set_keys_NoDup {V} k (v : V) d :
  NoDup (PyDict.keys d) -> NoDup (PyDict.keys (PyDict.set k v d)).
Proof.
  intros Hnd. rewrite set_keys.
  destruct (PyDict.mem k d) eqn:Hm; [assumption |].
  apply NoDup_app; [assumption | repeat constructor; simpl; tauto |].
  intros x Hx [<- | []].
  apply mem_keys in Hx. congruence.
Qed.

Lemma set_nonempty {V} k (v : V) d : PyDict.set k v d <> [].
Proof. destruct d as [| [k' v'] d]; simpl; [| destruct (String.eqb k k')]; discriminate. Qed.

Lemma pagination_key_false k :
  pagination_key k = false ->
  k <> "pageNo" /\ k <> "numOfRows" /\ k <> "serviceKey" /\ k <> "returnType".
Proof.
  unfold pagination_key. rewrite !orb_false_iff, !String.eqb_neq. tauto.
Qed.

(** X2: the query of a page request always carries the page number, the
    page size, the service key and the return type of the settings, even
    when the caller's base parameters hold these keys with other
    values; every other base parameter is passed on unchanged, and keys
    stay distinct. *)
Theorem page_params_query cfg base page :
  PyDict.lookup "pageNo" (page_params cfg base page) = Some (PyInt (Z.of_nat page))
  /\ PyDict.lookup "numOfRows" (page_params cfg base page)
     = Some (PyInt (Z.of_nat (NUM_OF_ROWS cfg)))
  /\ PyDict.lookup "serviceKey" (page_params cfg base page)
     = Some (PyStr (SERVICE_KEY cfg))
  /\ PyDict.lookup "returnType" (page_params cfg base page)
     = Some (PyStr (RETURN_TYPE cfg))
  /\ (forall k, pagination_key k = false ->
                PyDict.lookup k (page_params cfg base page) = PyDict.lookup k base)
  /\ (NoDup (PyDict.keys base) -> NoDup (PyDict.keys (page_params cfg base page))).
Proof.
  unfold page_params.
  repeat split.
  - rewrite !set_lookup_other by discriminate. apply set_lookup_same.
  - rewrite !set_lookup_other by discriminate. apply set_lookup_same.
  - rewrite !set_lookup_other by discriminate. apply set_lookup_same.
  - apply set_lookup_same.
  - intros k Hk. apply pagination_key_false in Hk.
    destruct Hk as (H1 & H2 & H3 & H4).
    rewrite !set_lookup_other by congruence. reflexivity.
  - intros Hnd. now repeat apply set_keys_NoDup.
Qed.

Lemma page_params_query_witness :
  let base := [("cond[exmn_ymd::GTE]", PyStr "20250101"); ("pageNo", PyInt 99)] in
  PyDict.lookup "cond[exmn_ymd::GTE]" (page_params (module_config "key") base 3)
  = Some (PyStr "20250101")
  /\ PyDict.lookup "pageNo" (page_params (module_config "key") base 3)
     = Some (PyInt 3)
  /\ NoDup (PyDict.keys (page_params (module_config "key") base 3)).
Proof.
  intros base.
  pose proof (page_params_query (module_config "key") base 3)
    as (Hpage & _ & _ & _ & Hother & Hnd).
  split; [| split].
  - rewrite (Hother "cond[exmn_ymd::GTE]" eq_refl). reflexivity.
  - exact Hpage.
  - apply Hnd. repeat constructor; simpl; intuition discriminate.
Defined.
(** ** Coercion to Records *)

Lemma vsize_lookup k d v :
  PyDict.lookup k d = Some v -> vsize v < vsize (PyDict d).
Proof.
  cbn [vsize].
  induction d as [| [k' v'] d IH]; cbn -[String.eqb]; [discriminate |].
  destruct (String.eqb k k').
  - intros H. injection H as ->. lia.
  - intros H. specialize (IH H). lia.
Qed.

Lemma mem_lookup {V} k (d : list (string * V)) :
  PyDict.mem k d = true -> exists v, PyDict.lookup k d = Some v.
Proof. unfold PyDict.mem. destruct (PyDict.lookup k d); [eauto | discriminate]. Qed.

(** X3: no Record is extracted from a value exactly when the value is
    null, an empty sequence, or a mapping whose "item" key leads, through
    any number of such mappings, to one of these.  Every other value,
    the empty mapping included, gives at least one Record. *)
Theorem _normalize_items_empty obj :
  _normalize_items obj = [] <-> no_items obj.
Proof.
  split.
  - remember (vsize obj) as n eqn:Hn. revert obj Hn.
    induction n as [n IH] using lt_wf_ind. intros obj Hn Hempty.
    destruct obj as [| b | z | f | s | l | d]; try discriminate.
    + constructor.
    + destruct l; [constructor | discriminate].
    + destruct (PyDict.mem "item" d) eqn:Hmem.
      * rewrite _normalize_items_item in Hempty by assumption.
        destruct (mem_lookup _ _ Hmem) as (v & Hv).
        constructor; [assumption |].
        apply (IH (vsize (PyDict.get d "item"))); [| reflexivity | assumption].
        subst n. rewrite (lookup_get _ _ _ Hv). eapply vsize_lookup; eassumption.
      * rewrite _normalize_items_plain in Hempty by assumption. discriminate.
  - induction 1 as [| | d Hmem _ IH]; [reflexivity | reflexivity |].
    now rewrite _normalize_items_item.
Qed.

Lemma _normalize_items_empty_witness :
  _normalize_items
    (PyDict [("numOfRows", PyInt 100);
             ("item", PyDict [("item", PyList [])])]) = []
  /\ no_items (PyDict [("item", PyNone)])
  /\ _normalize_items (PyDict []) = [[]].
Proof.
  split; [| split].
  - apply (proj2 (_normalize_items_empty _)).
    apply no_items_item; [reflexivity |].
    apply no_items_item; [reflexivity |]. apply no_items_nil.
  - apply (proj1 (_normalize_items_empty (PyDict [("item", PyNone)]))).
    reflexivity.
  - reflexivity.
Defined.


(** ** XML extraction *)

Lemma find_app {A} (p : A -> bool) l1 l2 :
  find p (l1 ++ l2) = match find p l1 with
                      | Some x => Some x
                      | None => find p l2
                      end.
Proof.
  induction l1 as [| x l1 IH]; simpl; [reflexivity |].
  now destruct (p x).
Qed.

Lemma xml_row_fold tag children : forall row,
  PyDict.lookup tag
    (fold_left (fun row child =>
                  PyDict.set (ET.tag child) (ET.text_value child) row)
               children row)
  = match find (fun c => String.eqb (ET.tag c) tag) (rev children) with
    | Some c => Some (ET.text_value c)
    | None => PyDict.lookup tag row
    end.
Proof.
  induction children as [| c cs IH]; intros row; [reflexivity |].
  cbn [fold_left rev]. rewrite IH, find_app.
  destruct (find _ (rev cs)); [reflexivity |].
  cbn [find]. destruct (String.eqb (ET.tag c) tag) eqn:Ht.
  - apply String.eqb_eq in Ht. subst. apply set_lookup_same.
  - apply String.eqb_neq in Ht. now apply set_lookup_other.
Qed.

Lemma xml_row_keys_fold children : forall row,
  NoDup (PyDict.keys row) ->
  NoDup (PyDict.keys
           (fold_left (fun row child =>
                         PyDict.set (ET.tag child) (ET.text_value child) row)
                      children row)).
Proof.
  induction children as [| c cs IH]; intros row Hnd; [assumption |].
  cbn [fold_left]. now apply IH, set_keys_NoDup.
Qed.

Lemma fold_set_nonempty children : forall row,
  row <> [] ->
  fold_left (fun row child =>
               PyDict.set (ET.tag child) (ET.text_value child) row)
            children row <> [].
Proof.
  induction children as [| c cs IH]; intros row Hne; [assumption |].
  cbn [fold_left]. apply IH, set_nonempty.
Qed.

Lemma xml_row_empty item : xml_row item = [] <-> ET.children item = [].
Proof.
  unfold xml_row. destruct (ET.children item) as [| c cs]; [tauto |].
  cbn [fold_left]. split; [| discriminate].
  intros H. exfalso. revert H. apply fold_set_nonempty, set_nonempty.
Qed.

Lemma xml_rows_fold items : forall acc,
  fold_left (fun acc item =>
               let row := xml_row item in
               match row with
               | [] => acc
               | _ => acc ++ [row]
               end) items acc
  = acc ++ map xml_row (filter has_children items).
Proof.
  induction items as [| item items IH]; intros acc; cbn [fold_left filter map].
  - now rewrite app_nil_r.
  - rewrite IH. pose proof (xml_row_empty item) as Hrow.
    destruct (has_children item) eqn:Hh; unfold has_children in Hh.
    + destruct (xml_row item) as [| kv row] eqn:Hr.
      * rewrite (proj1 Hrow eq_refl) in Hh. discriminate.
      * cbn [map]. rewrite Hr, <- app_assoc. reflexivity.
    + destruct (ET.children item); [| discriminate].
      now rewrite (proj2 Hrow eq_refl).
Qed.

(** X5: XML extraction returns, in document order, one Record for every
    [item] element below the root that has at least one child element,
    and none for an [item] without children; parser failures are passed
    on.  Each Record has distinct keys, is never empty, and maps a tag to
    the text of the last child carrying that tag. *)
Theorem parse_xml_items_records
  (ET_fromstring : string -> result element) (xml_text : string) :
  parse_xml_items ET_fromstring xml_text
  = match ET_fromstring xml_text with
    | Ok root =>
        Ok (map xml_row (filter has_children (ET.findall_deep "item" root)))
    | Raise e => Raise e
    end
  /\ forall item,
      NoDup (PyDict.keys (xml_row item))
      /\ (has_children item = true -> xml_row item <> [])
      /\ forall tag, PyDict.lookup tag (xml_row item) = last_child_text tag item.
Proof.
  split.
  - unfold parse_xml_items. destruct (ET_fromstring xml_text); [| reflexivity].
    cbn [rbind]. unfold xml_rows. now rewrite xml_rows_fold.
  - intros item. split; [| split].
    + apply xml_row_keys_fold. constructor.
    + unfold has_children. intros Hc Hr. apply xml_row_empty in Hr.
      rewrite Hr in Hc. discriminate.
    + intros tag. unfold xml_row, last_child_text. rewrite xml_row_fold.
      now destruct (find _ (rev (ET.children item))).
Qed.

Lemma parse_xml_items_records_witness :
  parse_xml_items (fun _ => Ok sample_tree) "<response>...</response>"
  = Ok [[("name", PyStr "rice"); ("price", PyStr "52000")];
        [("name", PyStr "red bean"); ("price", PyNone)]]
  /\ xml_row (Element "item" None [Element "name" (Some "bean") []]) <> [].
Proof.
  split.
  - rewrite (proj1 (parse_xml_items_records (fun _ => Ok sample_tree) _)).
    reflexivity.
  - apply (proj2 (parse_xml_items_records (fun _ => Ok sample_tree) EmptyString)).
    reflexivity.
Defined.

(** ** Declared totals *)




(** * Further facts about the paginator *)

Section PaginatorShape.

Variable json_loads : string -> result value.
Variable ET_fromstring : string -> result element.
Variable World : Type.
Variable requests_get :
  World -> string -> dict -> nat -> result response * World.
Variable cfg : config.

Let fetch' := fetch json_loads ET_fromstring requests_get cfg.
Let body' := paginate_body json_loads ET_fromstring requests_get cfg.
Let loop' := paginate_loop json_loads ET_fromstring requests_get cfg.

Lemma requests_log_count url base k : forall page,
  requests_issued (requests_log cfg url base k page) = k.
Proof.
  induction k as [| k IH]; intros page; [reflexivity |].
  cbn [requests_log]. destruct k as [| k]; [reflexivity |].
  change (requests_issued
            (EvGet url (page_params cfg base page) (TIMEOUT cfg)
             :: EvSleep (SLEEP_SEC cfg)
             :: requests_log cfg url base (S k) (page + 1)))
    with (S (requests_issued (requests_log cfg url base (S k) (page + 1)))).
  now rewrite IH.
Qed.

(** The shape of a run of the loop from any point: its log, the number of
    its requests, and the size of what it returns. *)
Lemma loop_shape url base fuel :
  forall page all_items st,
    MAX_PAGES cfg + 1 <= page + fuel ->
    exists r st' k tail,
      loop' url base fuel page all_items st = Some (r, st')
      /\ trace st' = trace st ++ requests_log cfg url base k page ++ tail
      /\ k <= MAX_PAGES cfg + 1 - page
      /\ (page <= MAX_PAGES cfg -> 0 < k)
      /\ (tail = []
          \/ (tail = [EvSleep (SLEEP_SEC cfg)]
              /\ page + k = MAX_PAGES cfg + 1 /\ 0 < k
              /\ exists ds, r = Ok ds))
      /\ (forall ds, r = Ok ds ->
                     length all_items + NUM_OF_ROWS cfg * (k - 1) <= length ds).
Proof.
  induction fuel as [| fuel IH]; intros page all_items st Hfuel.
  - exists (Ok all_items), st, 0, [].
    unfold loop'. rewrite loop_past_cap by lia.
    cbn [requests_log]. rewrite !app_nil_r.
    repeat split; try lia; [now left |].
    intros ds H. injection H as <-. lia.
  - destruct (Nat.le_gt_cases page (MAX_PAGES cfg)) as [Hle | Hgt].
    2:{ exists (Ok all_items), st, 0, [].
        unfold loop'. rewrite loop_past_cap by lia.
        cbn [requests_log]. rewrite !app_nil_r.
        repeat split; try lia; [now left |].
        intros ds H. injection H as <-. lia. }
    unfold loop'. rewrite loop_step by assumption.
    destruct (fetch' url (page_params cfg base page) (world st))
      as [[[items meta] | e] w] eqn:Hf.
    + rewrite (paginate_body_ok _ _ _ _ _ _ _ _ _ _ _ _ _ Hf).
      assert (Hbreak :
                length all_items <= length (all_items ++ items) ->
                exists r st' k tail,
                  Some (Ok (all_items ++ items),
                        after_get cfg st url (page_params cfg base page) w)
                  = Some (r, st')
                  /\ trace st' = trace st ++ requests_log cfg url base k page ++ tail
                  /\ k <= MAX_PAGES cfg + 1 - page
                  /\ (page <= MAX_PAGES cfg -> 0 < k)
                  /\ (tail = []
                      \/ (tail = [EvSleep (SLEEP_SEC cfg)]
                          /\ page + k = MAX_PAGES cfg + 1 /\ 0 < k
                          /\ exists ds, r = Ok ds))
                  /\ (forall ds, r = Ok ds ->
                                 length all_items + NUM_OF_ROWS cfg * (k - 1)
                                 <= length ds)).
      { intros Hlen.
        exists (Ok (all_items ++ items)),
               (after_get cfg st url (page_params cfg base page) w), 1, [].
        split; [reflexivity |].
        split; [cbn [requests_log after_get trace]; now rewrite app_nil_r |].
        repeat split; try lia; [now left |].
        intros ds H. injection H as <-. lia. }
      unfold body_outcome.
      destruct items as [| i items'].
      * rewrite app_nil_r in Hbreak. apply Hbreak. lia.
      * destruct (total_reached _ _);
          [apply Hbreak; rewrite length_app; lia |].
        destruct (Nat.ltb_spec (length (i :: items')) (NUM_OF_ROWS cfg)) as [Hlt | Hge];
          [apply Hbreak; rewrite length_app; lia |].
        destruct (IH (page + 1) (all_items ++ i :: items')
                     (emit (EvSleep (SLEEP_SEC cfg))
                           (after_get cfg st url (page_params cfg base page) w)))
          as (r & st' & k & tail & Hrun & Htrace & Hk & Hpos & Htail & Hsize);
          [lia |].
        fold loop'. rewrite Hrun.
        cbn [emit after_get trace] in Htrace.
        destruct k as [| k].
        -- (* the cap was reached: no further request *)
           assert (Hcap : page = MAX_PAGES cfg).
           { destruct (Nat.le_gt_cases (page + 1) (MAX_PAGES cfg)) as [H | H];
               [specialize (Hpos H); lia | lia]. }
           destruct Htail as [-> | (_ & _ & Hk0 & _)]; [| lia].
           exists r, st', 1, [EvSleep (SLEEP_SEC cfg)].
           split; [reflexivity |].
           split.
           { rewrite Htrace. cbn [requests_log]. now rewrite <- !app_assoc. }
           split; [lia |]. split; [lia |].
           split.
           { right. repeat split; try lia.
             unfold loop' in Hrun. rewrite loop_past_cap in Hrun by lia.
             injection Hrun as <- _. eauto. }
           intros ds Hds. specialize (Hsize ds Hds).
           rewrite length_app in Hsize. lia.
        -- exists r, st', (S (S k)), tail.
           split; [reflexivity |].
           split.
           { rewrite Htrace.
             change (requests_log cfg url base (S (S k)) page)
               with ([EvGet url (page_params cfg base page) (TIMEOUT cfg)]
                       ++ [EvSleep (SLEEP_SEC cfg)]
                       ++ requests_log cfg url base (S k) (page + 1)).
             now rewrite <- !app_assoc. }
           split; [lia |]. split; [lia |].
           split.
           { destruct Htail as [-> | (-> & Hpk & _ & Hds)]; [now left |].
             right. repeat split; try lia. exact Hds. }
           intros ds Hds. specialize (Hsize ds Hds).
           rewrite length_app in Hsize.
           cbn [Nat.sub] in Hsize |- *. rewrite Nat.sub_0_r in *.
           cbn [length] in Hge, Hsize. nia.
    + rewrite (paginate_body_raise _ _ _ _ _ _ _ _ _ _ _ _ Hf).
      exists (Raise e), (after_get cfg st url (page_params cfg base page) w), 1, [].
      split; [reflexivity |].
      split; [cbn [requests_log after_get trace]; now rewrite app_nil_r |].
      repeat split; try lia; [now left |].
      intros ds H. discriminate H.
Qed.

(** X7: the effects of a run, in order: one GET per page for pages 1, 2,
    ... k with the query of that page, and one pause between consecutive
    GETs.  Nothing follows the last GET, except when the run is ended by
    the page cap: then the run has [MAX_PAGES] requests and one more pause
    after the last of them. *)
Theorem paginate_log url base w r st' :
  paginate json_loads ET_fromstring requests_get cfg url base (start w)
  = Some (r, st') ->
  let k := requests_issued (trace st') in
  trace st' = requests_log cfg url base k 1
  \/ (k = MAX_PAGES cfg /\ 0 < k
      /\ trace st' = requests_log cfg url base k 1 ++ [EvSleep (SLEEP_SEC cfg)]
      /\ exists ds, r = Ok ds).
Proof.
  intros Hrun k.
  destruct (loop_shape url base (MAX_PAGES cfg) 1 [] (start w))
    as (r1 & st1 & k1 & tail & Hrun' & Htrace & Hk & _ & Htail & _); [lia |].
  unfold loop' in Hrun'. unfold paginate in Hrun. rewrite Hrun in Hrun'.
  injection Hrun' as <- <-. cbn [start trace app] in Htrace.
  assert (Hcount : k = k1).
  { unfold k. rewrite Htrace, requests_issued_app, requests_log_count.
    destruct Htail as [-> | (-> & _)]; unfold requests_issued; simpl; lia. }
  rewrite Hcount.
  destruct Htail as [-> | (-> & Hcap & Hpos & Hds)].
  - left. now rewrite app_nil_r in Htrace.
  - right. repeat split; [lia | lia | exact Htrace | exact Hds].
Qed.

(** X8: a Dataset returned after [k] page requests holds at least
    [NUM_OF_ROWS] Records for each request but the last: the loop goes on
    to a further page only after a page that is full. *)
Theorem paginate_size url base w ds st' :
  paginate json_loads ET_fromstring requests_get cfg url base (start w)
  = Some (Ok ds, st') ->
  NUM_OF_ROWS cfg * (requests_issued (trace st') - 1) <= length ds.
Proof.
  intros Hrun.
  destruct (loop_shape url base (MAX_PAGES cfg) 1 [] (start w))
    as (r1 & st1 & k1 & tail & Hrun' & Htrace & _ & _ & Htail & Hsize); [lia |].
  unfold loop' in Hrun'. unfold paginate in Hrun. rewrite Hrun in Hrun'.
  injection Hrun' as <- <-. cbn [start trace app] in Htrace.
  specialize (Hsize ds eq_refl). cbn [length] in Hsize.
  replace (requests_issued (trace st')) with k1; [lia |].
  rewrite Htrace, requests_issued_app, requests_log_count.
  destruct Htail as [-> | (-> & _)]; unfold requests_issued; simpl; lia.
Qed.

(** X9: a page request that fails in transport ends the run with that
    failure: when [requests.get] raises, or when the response carries a
    status from 400 to 599, the loop raises at that page; the body is not
    parsed, and the Records accumulated so far are not returned. *)
Theorem paginate_transport_failure url base fuel page all_items st :
  page <= MAX_PAGES cfg ->
  (forall e w,
      requests_get (world st) url (page_params cfg base page) (TIMEOUT cfg)
      = (Raise e, w) ->
      paginate_loop json_loads ET_fromstring requests_get cfg
                    url base (S fuel) page all_items st
      = Some (Raise e, after_get cfg st url (page_params cfg base page) w))
  /\ (forall resp w,
         requests_get (world st) url (page_params cfg base page) (TIMEOUT cfg)
         = (Ok resp, w) ->
         400 <= status_code resp < 600 ->
         paginate_loop json_loads ET_fromstring requests_get cfg
                       url base (S fuel) page all_items st
         = Some (Raise (HTTPError (status_code resp)),
                 after_get cfg st url (page_params cfg base page) w)).
Proof.
  intros Hle. split.
  - intros e w Hget. fold loop'. unfold loop'. rewrite loop_step by assumption.
    rewrite (paginate_body_raise _ _ _ _ _ url base page all_items st e w);
      [reflexivity |].
    unfold fetch. now rewrite Hget.
  - intros resp w Hget Hstatus. unfold loop'. rewrite loop_step by assumption.
    rewrite (paginate_body_raise _ _ _ _ _ url base page all_items st
                                 (HTTPError (status_code resp)) w);
      [reflexivity |].
    unfold fetch. rewrite Hget. cbn [rbind]. unfold raise_for_status.
    destruct (Nat.leb_spec 400 (status_code resp)); [| lia].
    destruct (Nat.ltb_spec (status_code resp) 600); [| lia].
    reflexivity.
Qed.

(** X10: a page with fewer Records than the page size ends the run with
    that page included, whether or not a total is declared; an empty page
    is the case of no Records. *)
Theorem paginate_short_page url base fuel page all_items st items meta w :
  page <= MAX_PAGES cfg ->
  fetch json_loads ET_fromstring requests_get cfg
        url (page_params cfg base page) (world st) = (Ok (items, meta), w) ->
  length items < NUM_OF_ROWS cfg ->
  paginate_loop json_loads ET_fromstring requests_get cfg
                url base (S fuel) page all_items st
  = Some (Ok (all_items ++ items),
          after_get cfg st url (page_params cfg base page) w).
Proof.
  intros Hle Hf Hshort. unfold loop'. rewrite loop_step by assumption.
  rewrite (paginate_body_ok _ _ _ _ _ _ _ _ _ _ _ _ _ Hf).
  unfold body_outcome. destruct items as [| i items'].
  - now rewrite app_nil_r.
  - destruct (total_reached _ _); [reflexivity |].
    now rewrite (proj2 (Nat.ltb_lt _ _) Hshort).
Qed.

End PaginatorShape.
Lemma paginate_log_witness :
  (exists r st',
      paginate (Mock.loads Mock.documents) Mock.fromstring Mock.scripted
               (module_config "key") "url" [] (start Mock.served_250)
      = Some (r, st')
      /\ trace st' = requests_log (module_config "key") "url" [] 3 1)
  /\ exists r st',
      paginate (Mock.loads Mock.documents) Mock.fromstring
               (Mock.constant (Mock.json_response "pair, no total"))
               Mock.small_config "url" [] (start tt)
      = Some (r, st')
      /\ trace st'
         = requests_log Mock.small_config "url" [] 5 1
             ++ [EvSleep (SLEEP_SEC Mock.small_config)].
Proof.
  split.
  - eexists. eexists. split; [vm_compute; reflexivity |].
    match goal with
    | |- trace ?st = _ =>
        destruct (paginate_log (Mock.loads Mock.documents) Mock.fromstring _
                               Mock.scripted (module_config "key") "url" []
                               Mock.served_250
                               (Ok (Mock.records 100 ++ Mock.records 100
                                      ++ Mock.records 50)) st)
          as [H | (H & _)]
    end.
    + vm_compute. reflexivity.
    + exact H.
    + vm_compute in H. discriminate H.
  - eexists. eexists. split; [vm_compute; reflexivity |].
    match goal with
    | |- trace ?st = _ =>
        destruct (paginate_log (Mock.loads Mock.documents) Mock.fromstring _
                               (Mock.constant (Mock.json_response "pair, no total"))
                               Mock.small_config "url" [] tt
                               (Ok (concat (repeat [[("a", PyStr "1")];
                                                    [("a", PyStr "2")]] 5))) st)
          as [H | (_ & _ & H & _)]
    end.
    + vm_compute. reflexivity.
    + vm_compute in H. discriminate H.
    + exact H.
Defined.

Lemma paginate_size_witness :
  exists ds st',
    paginate (Mock.loads Mock.documents) Mock.fromstring Mock.scripted
             (module_config "key") "url" [] (start Mock.served_250)
    = Some (Ok ds, st')
    /\ requests_issued (trace st') = 3
    /\ 100 * (requests_issued (trace st') - 1) <= length ds.
Proof.
  eexists. eexists. split; [vm_compute; reflexivity |].
  split; [reflexivity |].
  apply (paginate_size (Mock.loads Mock.documents) Mock.fromstring _
                       Mock.scripted (module_config "key") "url" []
                       Mock.served_250).
  vm_compute. reflexivity.
Defined.

Lemma paginate_transport_failure_witness :
  paginate_loop (Mock.loads Mock.documents) Mock.fromstring Mock.scripted
                (module_config "key") "url" [] 50 1 [] (start [])
  = Some (Raise RequestException,
          after_get (module_config "key") (start []) "url"
                    (page_params (module_config "key") [] 1) [])
  /\ paginate_loop (Mock.loads Mock.documents) Mock.fromstring Mock.scripted
                   (module_config "key") "url" [] 49 2 (Mock.records 100)
                   (start (tl served_then_down))
     = Some (Raise (HTTPError 503),
             after_get (module_config "key") (start (tl served_then_down)) "url"
                       (page_params (module_config "key") [] 2) []).
Proof.
  split.
  - apply (proj1 (paginate_transport_failure
                    (Mock.loads Mock.documents) Mock.fromstring _ Mock.scripted
                    (module_config "key") "url" [] 49 1 [] (start [])
                    ltac:(cbn; lia))).
    reflexivity.
  - apply (proj2 (paginate_transport_failure
                    (Mock.loads Mock.documents) Mock.fromstring _ Mock.scripted
                    (module_config "key") "url" [] 48 2 (Mock.records 100)
                    (start (tl served_then_down)) ltac:(cbn; lia))
                 {| status_code := 503; resp_body := "full page of 250";
                    headers := [("Content-Type", "application/json")] |} []).
    + reflexivity.
    + cbn. lia.
Defined.

Lemma paginate_short_page_witness :
  paginate_loop (Mock.loads Mock.documents) Mock.fromstring Mock.scripted
                (module_config "key") "url" [] 49 2 (Mock.records 100)
                (start [Ok (Mock.json_response "pair, no total")])
  = Some (Ok (Mock.records 100 ++ [[("a", PyStr "1")]; [("a", PyStr "2")]]),
          after_get (module_config "key")
                    (start [Ok (Mock.json_response "pair, no total")]) "url"
                    (page_params (module_config "key") [] 2) []).
Proof.
  apply (paginate_short_page
           (Mock.loads Mock.documents) Mock.fromstring _ Mock.scripted
           (module_config "key") "url" [] 48 2 (Mock.records 100)
           (start [Ok (Mock.json_response "pair, no total")])
           [[("a", PyStr "1")]; [("a", PyStr "2")]]
           (PyList [PyDict [("a", PyStr "1")]; PyDict [("a", PyStr "2")]])).
  - cbn. lia.
  - reflexivity.
  - cbn. lia.
Defined.

(** * Further facts about type inference *)

Lemma infer_type_classify ser :
  infer_type ser = classify (cleaned_values (Series.dropna ser)).
Proof.
  unfold infer_type, classify, cleaned_values.
  destruct (filter _ (map PyStr.strip (Series.dropna ser))) as [| x s];
    [reflexivity |].
  now rewrite !mean_threshold by discriminate.
Qed.

Lemma dropna_Permutation ser ser' :
  Permutation ser ser' -> Permutation (Series.dropna ser) (Series.dropna ser').
Proof.
  induction 1 as [| c l l' _ IH | c c' l | l l' l'' _ IH1 _ IH2].
  - constructor.
  - destruct c; simpl; [now constructor | assumption].
  - destruct c, c'; simpl; try reflexivity. constructor.
  - now transitivity (Series.dropna l').
Qed.

Lemma filter_Permutation {A} (p : A -> bool) l l' :
  Permutation l l' -> Permutation (filter p l) (filter p l').
Proof.
  induction 1 as [| x l l' _ IH | x y l | l l' l'' _ IH1 _ IH2].
  - constructor.
  - simpl. destruct (p x); [now constructor | assumption].
  - simpl. destruct (p x), (p y); try reflexivity. constructor.
  - now transitivity (filter p l').
Qed.

Lemma fraction_ge_090_Permutation p l l' :
  Permutation l l' -> fraction_ge_090 p l = fraction_ge_090 p l'.
Proof.
  intros H. unfold fraction_ge_090.
  now rewrite (Permutation_length H),
    (Permutation_length (filter_Permutation p _ _ H)).
Qed.

Lemma classify_Permutation l l' : Permutation l l' -> classify l = classify l'.
Proof.
  intros H. unfold classify.
  rewrite !(fraction_ge_090_Permutation _ _ _ H).
  destruct l as [| x l], l' as [| x' l']; try reflexivity.
  - apply Permutation_nil in H. discriminate.
  - symmetry in H. apply Permutation_nil in H. discriminate.
Qed.

(** X11: the inferred type of a column does not depend on the order of
    its rows. *)
Theorem infer_type_row_order ser ser' :
  Permutation ser ser' -> infer_type ser = infer_type ser'.
Proof.
  intros H. rewrite !infer_type_classify. apply classify_Permutation.
  unfold cleaned_values.
  now apply filter_Permutation, Permutation_map, dropna_Permutation.
Qed.

Lemma infer_type_row_order_witness :
  infer_type [Some "1"; None; Some "2.5"; Some " 3 "] = T_float
  /\ infer_type [Some " 3 "; Some "2.5"; None; Some "1"]
     = infer_type [Some "1"; None; Some "2.5"; Some " 3 "].
Proof.
  split; [reflexivity |].
  apply infer_type_row_order.
  change [Some " 3 "; Some "2.5"; None; Some "1"]
    with (rev [Some "1"; None; Some "2.5"; Some " 3 "]).
  symmetry. apply Permutation_rev.
Defined.

(** ** Trimming *)

Lemma rstrip_idempotent s : PyStr.rstrip (PyStr.rstrip s) = PyStr.rstrip s.
Proof.
  induction s as [| c s IH]; [reflexivity |].
  cbn [PyStr.rstrip].
  destruct (PyStr.rstrip s) as [| a r] eqn:Hr.
  - destruct (PyStr.is_space c) eqn:Hc; [reflexivity |].
    cbn [PyStr.rstrip]. now rewrite Hc.
  - cbn [PyStr.rstrip] in *. rewrite IH. reflexivity.
Qed.

Lemma lstrip_fixed s :
  match s with
  | EmptyString => True
  | String c _ => PyStr.is_space c = false
  end ->
  PyStr.lstrip s = s.
Proof. destruct s as [| c s]; [reflexivity |]. simpl. now intros ->. Qed.

Lemma strip_idempotent s : PyStr.strip (PyStr.strip s) = PyStr.strip s.
Proof.
  unfold PyStr.strip.
  pose proof (lstrip_head s) as Hhead.
  destruct (PyStr.lstrip s) as [| c t] eqn:Hl; [reflexivity |].
  destruct (rstrip_keeps_head c t Hhead) as (t' & Hr).
  rewrite lstrip_fixed by (rewrite Hr; exact Hhead).
  apply rstrip_idempotent.
Qed.

Lemma dropna_map_Some l : Series.dropna (map Some l) = l.
Proof. induction l; simpl; congruence. Qed.

Lemma cleaned_values_fixed l :
  cleaned_values (cleaned_values l) = cleaned_values l.
Proof.
  unfold cleaned_values.
  induction l as [| x l IH]; [reflexivity |].
  cbn [map filter].
  destruct (negb (String.eqb (PyStr.strip x) EmptyString)) eqn:Hx; [| exact IH].
  cbn [map filter]. rewrite strip_idempotent, Hx. now rewrite IH.
Qed.

(** X12: the inferred type depends only on the non-null values after
    trimming, blanks left out: nulls, blank cells and white space around
    a value change nothing. *)
Theorem infer_type_cleaned ser :
  infer_type ser = infer_type (map Some (cleaned_values (Series.dropna ser))).
Proof.
  rewrite !infer_type_classify. now rewrite dropna_map_Some, cleaned_values_fixed.
Qed.

(** ** Integers among numbers *)








(** * Further facts about the schema summary *)

(** ** Order of the summary *)

Lemma insert_by_Permutation {A} (key : A -> string) x l :
  Permutation (Pandas.insert_by key x l) (x :: l).
Proof.
  induction l as [| y l IH]; simpl; [reflexivity |].
  destruct (String.leb (key x) (key y)); [reflexivity |].
  rewrite IH. apply perm_swap.
Qed.

Lemma sort_by_Permutation {A} (key : A -> string) l :
  Permutation (Pandas.sort_by key l) l.
Proof.
  induction l as [| x l IH]; simpl; [reflexivity |].
  rewrite insert_by_Permutation. now constructor.
Qed.

Lemma insert_by_sorted {A} (key : A -> string) x l :
  StronglySorted (fun a b => string_le (key a) (key b)) l ->
  StronglySorted (fun a b => string_le (key a) (key b)) (Pandas.insert_by key x l).
Proof.
  induction l as [| y l IH]; intros Hs; simpl.
  - repeat constructor.
  - inversion Hs as [| y' l' Hl Hy]; subst.
    destruct (String.leb (key x) (key y)) eqn:Hxy.
    + constructor; [assumption |].
      constructor; [exact Hxy |].
      eapply Forall_impl; [| exact Hy].
      intros z Hz. unfold string_le in *. eapply string_leb_trans; eassumption.
    + constructor; [now apply IH |].
      apply Forall_forall. intros z Hz.
      apply In_insert_by in Hz. destruct Hz as [-> | Hz].
      * unfold string_le. destruct (String.leb_total (key x) (key y)); congruence.
      * rewrite Forall_forall in Hy. now apply Hy.
Qed.

Lemma sort_by_sorted {A} (key : A -> string) l :
  StronglySorted (fun a b => string_le (key a) (key b)) (Pandas.sort_by key l).
Proof.
  induction l as [| x l IH]; simpl; [constructor |].
  now apply insert_by_sorted.
Qed.

Lemma map_StronglySorted {A} (key : A -> string) l :
  StronglySorted (fun a b => string_le (key a) (key b)) l ->
  StronglySorted string_le (map key l).
Proof.
  induction 1 as [| x l _ IH Hx]; simpl; constructor; [assumption |].
  apply Forall_forall. intros k Hk. apply in_map_iff in Hk.
  destruct Hk as (y & <- & Hy). rewrite Forall_forall in Hx. now apply Hx.
Qed.

Lemma summary_columns_Permutation (to_numeric : string -> option Q) df ps :
  summarize_dataframe to_numeric df = Ok ps ->
  Permutation (map column ps) (map fst (columns df)).
Proof.
  intros Hs.
  destruct (columns df) as [| c cs] eqn:Hc.
  - rewrite summarize_no_columns in Hs by assumption. discriminate.
  - rewrite summarize_some_columns in Hs by congruence.
    injection Hs as <-. rewrite Hc.
    rewrite (Permutation_map column (sort_by_Permutation column _)).
    rewrite map_map. cbn [column summarize_column]. reflexivity.
Qed.

(** X15: the summary of a frame has one row for each of its columns, and
    its rows are in ascending order of column name. *)
Theorem summarize_dataframe_order (to_numeric : string -> option Q) df ps :
  summarize_dataframe to_numeric df = Ok ps ->
  Permutation (map column ps) (map fst (columns df))
  /\ StronglySorted string_le (map column ps).
Proof.
  intros Hs. split; [now apply summary_columns_Permutation with to_numeric |].
  destruct (columns df) as [| c cs] eqn:Hc.
  - rewrite summarize_no_columns in Hs by assumption. discriminate.
  - rewrite summarize_some_columns in Hs by congruence.
    injection Hs as <-. apply map_StronglySorted, sort_by_sorted.
Qed.

Lemma summarize_dataframe_order_witness :
  exists ps,
    summarize_dataframe to_numeric_digits
      (Pandas.DataFrame_of [[("price", Some "3"); ("item", Some "rice")];
                            [("date", Some "20250101")]])
    = Ok ps
    /\ map column ps = ["date"; "item"; "price"]
    /\ Permutation (map column ps) ["price"; "item"; "date"]
    /\ StronglySorted string_le (map column ps).
Proof.
  eexists. split; [vm_compute; reflexivity |].
  split; [reflexivity |].
  apply (summarize_dataframe_order to_numeric_digits
           (Pandas.DataFrame_of [[("price", Some "3"); ("item", Some "rice")];
                                 [("date", Some "20250101")]])).
  vm_compute. reflexivity.
Defined.

(** ** Columns of a Dataset *)

Lemma existsb_eqb_In k l : existsb (String.eqb k) l = true <-> In k l.
Proof.
  rewrite existsb_exists. split.
  - intros (x & Hx & Heq). apply String.eqb_eq in Heq. now subst.
  - intros H. exists k. split; [assumption | apply String.eqb_refl].
Qed.

Lemma add_labels_fold ks : forall seen,
  let out := fold_left (fun acc k => if existsb (String.eqb k) acc then acc
                                     else acc ++ [k]) ks seen in
  (NoDup seen -> NoDup out)
  /\ forall c, In c out <-> In c seen \/ In c ks.
Proof.
  induction ks as [| k ks IH]; intros seen; cbn [fold_left].
  - split; [auto | intros c; simpl; tauto].
  - destruct (existsb (String.eqb k) seen) eqn:Hk.
    + destruct (IH seen) as [Hnd Hin]. split; [exact Hnd |].
      intros c. rewrite Hin. apply existsb_eqb_In in Hk.
      simpl. intuition (subst; auto).
    + destruct (IH (seen ++ [k])) as [Hnd Hin]. split.
      * intros Hs. apply Hnd. apply NoDup_app; [assumption | repeat constructor; simpl; tauto |].
        intros x Hx [<- | []]. apply existsb_eqb_In in Hx. congruence.
      * intros c. rewrite Hin, in_app_iff. simpl. tauto.
Qed.

Lemma labels_fold items : forall seen,
  let out := fold_left Pandas.add_labels items seen in
  (NoDup seen -> NoDup out)
  /\ forall c, In c out
               <-> In c seen \/ exists r, In r items /\ PyDict.mem c r = true.
Proof.
  induction items as [| r items IH]; intros seen; cbn [fold_left].
  - split; [auto |]. intros c. split; [auto | intros [H | (r & [] & _)]; exact H].
  - destruct (IH (Pandas.add_labels seen r)) as [Hnd Hin].
    destruct (add_labels_fold (PyDict.keys r) seen) as [Hnd' Hin'].
    split.
    + intros Hs. apply Hnd. now apply Hnd'.
    + intros c. rewrite Hin. unfold Pandas.add_labels. rewrite Hin'.
      rewrite <- mem_keys. split.
      * intros [[H | H] | (r' & Hr' & Hm)]; [now left | right | right].
        -- exists r. split; [now left | assumption].
        -- exists r'. split; [now right | assumption].
      * intros [H | (r' & [<- | Hr'] & Hm)]; [now left; left | now left; right |].
        right. now exists r'.
Qed.

(** X16: the summary of a Dataset has exactly one row for each distinct
    field name that occurs in some Record: no name twice, no field left
    out, whether or not every Record has the field. *)
Theorem summarize_dataset_columns (to_numeric : string -> option Q) items ps :
  summarize_dataframe to_numeric (Pandas.DataFrame_of items) = Ok ps ->
  NoDup (map column ps)
  /\ forall c, In c (map column ps)
               <-> exists r, In r items /\ PyDict.mem c r = true.
Proof.
  intros Hs.
  pose proof (summary_columns_Permutation to_numeric _ _ Hs) as Hperm.
  assert (Hcols : map fst (columns (Pandas.DataFrame_of items)) = Pandas.labels items).
  { cbn [Pandas.DataFrame_of columns]. rewrite map_map. cbn [fst]. apply map_id. }
  rewrite Hcols in Hperm.
  destruct (labels_fold items []) as [Hnd Hin]. fold (Pandas.labels items) in Hnd, Hin.
  split.
  - eapply Permutation_NoDup; [symmetry; exact Hperm |]. apply Hnd. constructor.
  - intros c. split.
    + intros Hc. apply (Permutation_in _ Hperm) in Hc. apply Hin in Hc.
      destruct Hc as [[] | Hc]. exact Hc.
    + intros Hc. apply (Permutation_in _ (Permutation_sym Hperm)).
      apply Hin. now right.
Qed.

Lemma summarize_dataset_columns_witness :
  exists ps,
    summarize_dataframe to_numeric_digits (Pandas.DataFrame_of ten_records) = Ok ps
    /\ NoDup (map column ps)
    /\ (In "price" (map column ps)
        <-> exists r, In r ten_records /\ PyDict.mem "price" r = true).
Proof.
  eexists. split; [vm_compute; reflexivity |].
  match goal with
  | |- NoDup (map column ?ps) /\ _ =>
      destruct (summarize_dataset_columns to_numeric_digits ten_records ps)
        as [Hnd Hin]
  end.
  - vm_compute. reflexivity.
  - split; [exact Hnd | apply Hin].
Defined.

(** ** Bounds *)





Section SummaryBounds.

Variable to_numeric : string -> option Q.


Lemma nodup_length_le (l : list string) :
  length (nodup string_dec l) <= length l.
Proof.
  induction l as [| x l IH]; [reflexivity |].
  simpl. destruct (in_dec string_dec x l); simpl; lia.
Qed.

Lemma nunique_of_profile len_df col ser :
  nunique (summarize_column to_numeric len_df col ser)
  = match Series.dropna ser with
    | [] => 0
    | _ => Series.nunique (Series.dropna ser)
    end.
Proof. reflexivity. Qed.

(** X18: in the summary of a Dataset the distinct count of a column is at
    most the number of Records in which the field is present and
    non-null, and it is 0 exactly when there is no such Record. *)
Theorem nunique_range items ps p :
  summarize_dataframe to_numeric (Pandas.DataFrame_of items) = Ok ps ->
  In p ps ->
  nunique p <= present_count (column p) items
  /\ (nunique p = 0 <-> present_count (column p) items = 0).
Proof.
  intros Hs Hin.
  rewrite (summarize_dataset_rows _ _ _ _ Hs Hin).
  rewrite nunique_of_profile, <- length_dropna_column.
  cbn [column summarize_column].
  set (nonnull := Series.dropna (column_values (column p) items)).
  destruct nonnull as [| x l] eqn:Hnn; [simpl; split; [lia | tauto] |].
  unfold Series.nunique. split; [apply nodup_length_le |].
  split; [| discriminate].
  intros H0. exfalso.
  assert (Hx : In x (nodup string_dec (x :: l))) by (apply nodup_In; now left).
  destruct (nodup string_dec (x :: l)); [exact Hx | discriminate].
Qed.

(** ** The driver *)

Lemma labels_empty items :
  Pandas.labels items = [] <-> forall r, In r items -> r = [].
Proof.
  destruct (labels_fold items []) as [_ Hin]. fold (Pandas.labels items) in Hin.
  split.
  - intros Hl r Hr. destruct r as [| [k v] r']; [reflexivity |].
    exfalso. assert (H : In k (Pandas.labels items)).
    { apply Hin. right. exists ((k, v) :: r'). split; [assumption |].
      unfold PyDict.mem. cbn -[String.eqb]. now rewrite String.eqb_refl. }
    rewrite Hl in H. exact H.
  - intros Hall. destruct (Pandas.labels items) as [| c cs] eqn:Hl; [reflexivity |].
    exfalso. assert (H : In c (c :: cs)) by now left.
    apply Hin in H. destruct H as [[] | (r & Hr & Hm)].
    rewrite (Hall r Hr) in Hm. discriminate.
Qed.

(** X19: what the driver does with the Records of an endpoint: nothing
    when there are none; a key error when there are Records but none of
    them has a field (the frame has rows and no column); otherwise a
    summary with as many rows as the frame has columns. *)
Theorem main_api_outcome items :
  (items = [] -> main_api to_numeric items = Ok NoData)
  /\ (main_api to_numeric items = Raise (KeyError "column")
      <-> items <> [] /\ forall r, In r items -> r = [])
  /\ (forall r, In r items -> r <> [] ->
      exists summary,
        main_api to_numeric items = Ok (Summarized summary)
        /\ length summary = length (Pandas.labels items)).
Proof.
  split; [now intros -> |].
  assert (Hmain : items <> [] ->
                  main_api to_numeric items
                  = (let? summary := summarize_dataframe to_numeric
                                       (Pandas.DataFrame_of items) in
                     Ok (Summarized summary))%result).
  { destruct items; [congruence | reflexivity]. }
  assert (Hcols : columns (Pandas.DataFrame_of items) = []
                  <-> Pandas.labels items = []).
  { cbn [Pandas.DataFrame_of columns].
    destruct (Pandas.labels items); simpl; split; congruence. }
  split.
  - split.
    + intros Hraise.
      assert (Hne : items <> []) by (intros ->; discriminate).
      split; [exact Hne |]. apply labels_empty, Hcols.
      rewrite (Hmain Hne) in Hraise.
      destruct (columns (Pandas.DataFrame_of items)) eqn:Hc; [reflexivity |].
      rewrite summarize_some_columns in Hraise by congruence. discriminate.
    + intros (Hne & Hall). rewrite (Hmain Hne).
      rewrite summarize_no_columns; [reflexivity |].
      now apply Hcols, labels_empty.
  - intros r Hr Hfield.
    assert (Hne : items <> []) by (intros ->; exact Hr).
    assert (Hl : Pandas.labels items <> []).
    { intros Hl. apply Hfield. now apply (proj1 (labels_empty items) Hl). }
    rewrite (Hmain Hne), summarize_some_columns by (rewrite Hcols; exact Hl).
    eexists. split; [reflexivity |].
    rewrite length_sort_by, length_map. cbn [Pandas.DataFrame_of columns].
    apply length_map.
Qed.

End SummaryBounds.


Lemma nunique_range_witness :
  exists p,
    summarize_dataframe to_numeric_digits
                        (Pandas.DataFrame_of [[("a", None)]; [("a", None)]])
    = Ok [p]
    /\ nunique p <= present_count (column p) [[("a", None)]; [("a", None)]]
    /\ (nunique p = 0
        <-> present_count (column p) [[("a", None)]; [("a", None)]] = 0).
Proof.
  eexists. split; [vm_compute; reflexivity |].
  match goal with
  | |- nunique ?p <= _ /\ _ =>
      apply (nunique_range to_numeric_digits
                           [[("a", None)]; [("a", None)]] _ p eq_refl)
  end.
  left. reflexivity.
Defined.

Lemma main_api_outcome_witness :
  main_api to_numeric_digits [] = Ok NoData
  /\ main_api to_numeric_digits [[]; []] = Raise (KeyError "column")
  /\ exists summary,
      main_api to_numeric_digits ten_records = Ok (Summarized summary)
      /\ length summary = length (Pandas.labels ten_records).
Proof.
  split; [| split].
  - apply (proj1 (main_api_outcome to_numeric_digits [])). reflexivity.
  - apply (proj2 (proj1 (proj2 (main_api_outcome to_numeric_digits [[]; []])))).
    split; [discriminate |].
    intros r [<- | [<- | []]]; reflexivity.
  - apply (proj2 (proj2 (main_api_outcome to_numeric_digits ten_records))
                 [("id", Some "1"); ("price", Some "5200")]).
    + left. reflexivity.
    + discriminate.
Defined.
(** * The XML branch as the paginator sees it *)

(** X20: a body that is not taken as JSON is handed to the XML parser
    alone, and what comes back has empty metadata: no total is ever
    declared for it, so only an empty or a short page ends the loop
    before the cap; none of its Records is empty. *)
Theorem extract_items_xml
  (json_loads : string -> result value) (ET_fromstring : string -> result element)
  (text content_type : string) :
  is_json_response text content_type = false ->
  extract_items json_loads ET_fromstring text content_type
  = match ET_fromstring text with
    | Ok root =>
        Ok (map xml_row (filter has_children (ET.findall_deep "item" root)),
            PyDict [])
    | Raise e => Raise e
    end
  /\ forall items meta,
      extract_items json_loads ET_fromstring text content_type = Ok (items, meta) ->
      _extract_total_count meta = None
      /\ (forall all_items, total_reached (_extract_total_count meta) all_items = false)
      /\ forall r, In r items -> r <> [].
Proof.
  intros Hxml.
  assert (Heq : extract_items json_loads ET_fromstring text content_type
                = match ET_fromstring text with
                  | Ok root =>
                      Ok (map xml_row
                              (filter has_children (ET.findall_deep "item" root)),
                          PyDict [])
                  | Raise e => Raise e
                  end).
  { unfold extract_items, parse_xml_items. rewrite Hxml.
    destruct (ET_fromstring text); [| reflexivity].
    cbn [rbind]. unfold xml_rows. now rewrite xml_rows_fold. }
  split; [exact Heq |].
  intros items meta Hok. rewrite Heq in Hok.
  destruct (ET_fromstring text) as [root |]; [| discriminate].
  injection Hok as <- <-.
  split; [reflexivity |]. split; [reflexivity |].
  intros r Hr Hempty. apply in_map_iff in Hr.
  destruct Hr as (item & Hrow & Hitem).
  apply filter_In in Hitem. destruct Hitem as [_ Hc].
  rewrite Hempty in Hrow. apply xml_row_empty in Hrow.
  unfold has_children in Hc. rewrite Hrow in Hc. discriminate.
Qed.

Lemma extract_items_xml_witness :
  extract_items (Mock.loads Mock.documents) (fun _ => Ok sample_tree)
                "<response>...</response>" "text/xml"
  = Ok ([[("name", PyStr "rice"); ("price", PyStr "52000")];
         [("name", PyStr "red bean"); ("price", PyNone)]],
        PyDict [])
  /\ _extract_total_count (PyDict []) = None.
Proof.
  pose proof (extract_items_xml (Mock.loads Mock.documents) (fun _ => Ok sample_tree)
                                "<response>...</response>" "text/xml" eq_refl)
    as [Heq Hmeta].
  split.
  - rewrite Heq. reflexivity.
  - apply (Hmeta _ (PyDict []) Heq).
Defined.
